(** * pytest_check.check_methods: soft assertions for pytest

    A shallow embedding of [src/pytest_check/check_methods.py]: the
    module globals [_stop_on_fail] and [_failures], the shared [check]
    context manager, the [check_func] decorator, the [raises] context
    manager and the pseudo-traceback builder [log_failure].

    - Python text is a [string] of ASCII code points, a Python [int] is
      a [Z].
    - A computation is a function of the module globals that returns or
      raises; what it wrote to the globals before raising stays written.
    - The call stack is explicit: every function of the module receives
      the frames of its callers, innermost first, and puts its own frame
      in front of them when it calls on, so that [inspect.stack()] is
      the list Python would give.
    - An exception instance is its class and the text [str()] gives for
      it; it counts as true, as instances of [BaseException] do.
    - Exception classes form a tree (single inheritance). *)

From Stdlib Require Import String Ascii List ZArith Lia Bool DecimalString.
From Stdlib Require Import FunInd Recdef.
Import ListNotations.
Local Open Scope list_scope.
Local Open Scope string_scope.

Set Implicit Arguments.

(** ** Text helpers: [in], [str.strip], [str.join], [str(int)] *)

(** [needle in haystack] on Python strings. *)
Fixpoint contains (needle haystack : string) : bool :=
  String.prefix needle haystack ||
  match haystack with
  | EmptyString => false
  | String _ rest => contains needle rest
  end.

(** [str.isspace] on an ASCII character: TAB..CR, FS..US and the space. *)
Definition isspace (c : ascii) : bool :=
  let n := nat_of_ascii c in
  ((9 <=? n) && (n <=? 13) || (28 <=? n) && (n <=? 31) || (n =? 32))%nat.

Fixpoint lstrip (s : string) : string :=
  match s with
  | EmptyString => EmptyString
  | String c rest => if isspace c then lstrip rest else s
  end.

Fixpoint string_rev (s : string) : string :=
  match s with
  | EmptyString => EmptyString
  | String c rest => string_rev rest ++ String c EmptyString
  end.

Definition rstrip (s : string) : string := string_rev (lstrip (string_rev s)).

(** [s.strip()] *)
Definition strip (s : string) : string := rstrip (lstrip s).

Definition newline : string := String (ascii_of_nat 10) EmptyString.

(** [sep.join(items)] *)
Definition join (sep : string) (items : list string) : string :=
  String.concat sep items.

(** [str(n)] for a Python [int]. *)
Definition str_of_int (z : Z) : string := NilZero.string_of_int (Z.to_int z).

(** ** Exception classes

    The part of the builtin hierarchy the module meets, the module's own
    [DidNotRaiseException], and classes a test defines by (single)
    inheritance. *)

Inductive pyclass : Type :=
| BaseException
| Exception
| KeyboardInterrupt
| AssertionError
| TypeError
| ValueError
| LookupError
| IndexError
| KeyError
| DidNotRaiseException
| UserClass (name : string) (base : pyclass).

Definition pyclass_eq_dec (c d : pyclass) : {c = d} + {c <> d}.
Proof. decide equality. apply string_dec. Defined.

Definition pyclass_eqb (c d : pyclass) : bool :=
  if pyclass_eq_dec c d then true else false.

(** The method resolution order of a class: itself, then its ancestors. *)
Fixpoint mro (c : pyclass) : list pyclass :=
  match c with
  | BaseException => [BaseException]
  | Exception => [Exception; BaseException]
  | KeyboardInterrupt => [KeyboardInterrupt; BaseException]
  | AssertionError => [AssertionError; Exception; BaseException]
  | TypeError => [TypeError; Exception; BaseException]
  | ValueError => [ValueError; Exception; BaseException]
  | LookupError => [LookupError; Exception; BaseException]
  | IndexError => [IndexError; LookupError; Exception; BaseException]
  | KeyError => [KeyError; LookupError; Exception; BaseException]
  | DidNotRaiseException => [DidNotRaiseException; Exception; BaseException]
  | UserClass _ base => c :: mro base
  end.

(** [issubclass(c, d)] for a class [d]. *)
Definition issubclass (c d : pyclass) : bool :=
  existsb (pyclass_eqb d) (mro c).

(** [issubclass(c, classes)] for a tuple of classes. *)
Definition issubclass_tuple (c : pyclass) (classes : list pyclass) : bool :=
  existsb (issubclass c) classes.

(** ** Values *)

(** An exception instance: its class and the text [str()] gives for it. *)
Record PyExc : Type := mkExc { exc_class : pyclass; exc_str : string }.

Inductive pyval : Type :=
| VNone
| VBool (b : bool)
| VInt (z : Z)
| VStr (s : string)
| VExc (e : PyExc).

(** Truth value of an object, as [if x] and [x if c else y] test it. *)
Definition truthy (v : pyval) : bool :=
  match v with
  | VNone => false
  | VBool b => b
  | VInt z => negb (z =? 0)%Z
  | VStr s => negb (s =? "")
  | VExc _ => true
  end.

(** [str(v)], which is also what ["{}".format(v)] inserts. *)
Definition py_str (v : pyval) : string :=
  match v with
  | VNone => "None"
  | VBool true => "True"
  | VBool false => "False"
  | VInt z => str_of_int z
  | VStr s => s
  | VExc e => exc_str e
  end.

(** [v is not None] *)
Definition is_not_None (v : pyval) : bool :=
  match v with VNone => false | _ => true end.

(** ** The host: what the interpreter and the file system supply *)

(** [relpath] is [os.path.relpath] for the current directory, where
    it returns (the file names it rejects with a [ValueError] are
    those of [PathErrors] below), and [module_file] the file name
    under which [check_methods.py] itself shows up in a stack. *)
Class Host : Type := {
  relpath : string -> string;
  module_file : string
}.

(** One entry of [inspect.stack()], cut to the fields the module reads
    ([filename], [lineno], [function], [code_context]; the frame object
    in front of them is dropped by the pattern [(_, ...)]).
    [code_context] is [None] when the source of the frame is not
    available. *)
Record FrameInfo : Type := mkFrame {
  filename : string;
  lineno : Z;
  function : string;
  code_context : option (list string)
}.

(** The frame of a function of this module, stopped at [line]. *)
Definition module_frame `{Host} (line : Z) (name src : string) : FrameInfo :=
  mkFrame module_file line name (Some [src ++ newline]).

(** ** Outcomes and the state of the module *)

Inductive result (A : Type) : Type :=
| Return (a : A)
| Raise (e : PyExc).
Arguments Return {A} a.
Arguments Raise {A} e.

(** The module globals. [check_msg] is the [msg] attribute of the one
    [CheckContextManager] instance the module creates, [check]
    ([None] while only the class attribute is there). *)
Record state : Type := mkState {
  _stop_on_fail : bool;
  _failures : list string;
  check_msg : pyval
}.

(** The state when the module has just been imported. *)
Definition initial_state : state := mkState false [] VNone.

(** A computation reads and writes the globals and either returns or
    raises; the globals written before a raise stay written. *)
Definition M (A : Type) : Type := state -> result A * state.

Definition ret {A} (a : A) : M A := fun st => (Return a, st).

Definition raise {A} (e : PyExc) : M A := fun st => (Raise e, st).

Definition bind {A B} (m : M A) (k : A -> M B) : M B :=
  fun st =>
    match m st with
    | (Return a, st') => k a st'
    | (Raise e, st') => (Raise e, st')
    end.

(** A pure step that may raise. *)
Definition lift {A} (r : result A) : M A := fun st => (r, st).

Declare Scope py_scope.
Delimit Scope py_scope with py.
Notation "x <- m ;; k" := (bind m (fun x => k))
  (at level 61, m at next level, right associativity) : py_scope.
Notation "m ;; k" := (bind m (fun _ => k))
  (at level 61, right associativity) : py_scope.
Local Open Scope py_scope.

(** [try: body / except cls as e: handler(e)] *)
Definition try_except {A} (body : M A) (cls : pyclass) (handler : PyExc -> M A)
  : M A :=
  fun st =>
    match body st with
    | (Return a, st') => (Return a, st')
    | (Raise e, st') =>
        if issubclass (exc_class e) cls then handler e st' else (Raise e, st')
    end.

Definition read_stop_on_fail : M bool := fun st => (Return (_stop_on_fail st), st).

Definition read_check_msg : M pyval := fun st => (Return (check_msg st), st).

Definition write_check_msg (v : pyval) : M unit :=
  fun st => (Return tt, mkState (_stop_on_fail st) (_failures st) v).

(** [_failures.append(entry)] *)
Definition append_failure (entry : string) : M unit :=
  fun st =>
    (Return tt, mkState (_stop_on_fail st) (_failures st ++ [entry])%list (check_msg st)).

(** ** The Failure Recorder *)

Definition clear_failures : M unit :=
  fun st => (Return tt, mkState (_stop_on_fail st) [] (check_msg st)).

Definition get_failures : M (list string) :=
  fun st => (Return (_failures st), st).

Definition set_stop_on_fail (stop_on_fail : bool) : M unit :=
  fun st => (Return tt, mkState stop_on_fail (_failures st) (check_msg st)).

(** ** The pseudo-traceback *)

Definition IndexError_list : PyExc := mkExc IndexError "list index out of range".

Definition TypeError_None : PyExc :=
  mkExc TypeError "'NoneType' object is not subscriptable".

(** [get_full_context(level)], called from a function whose own frame
    and callers are [callers]: [inspect.stack()] is the frame of
    [get_full_context] itself followed by [callers]. *)
Definition get_full_context `{Host} (callers : list FrameInfo) (level : nat)
  : result (string * Z * string * string) :=
  let stack :=
    module_frame 253 "get_full_context"
      "    (_, filename, line, funcname, contextlist) = inspect.stack()[level][0:5]"
    :: callers in
  match nth_error stack level with
  | None => Raise IndexError_list
  | Some (mkFrame filename line funcname contextlist) =>
      let filename := relpath filename in
      match contextlist with
      | None => Raise TypeError_None
      | Some [] => Raise IndexError_list
      | Some (first :: _) => Return (filename, line, funcname, strip first)
      end
  end.

(** ["{}:{} in {}() -> {}".format(file, line, func, context)] *)
Definition format_line (file : string) (line : Z) (func context : string) : string :=
  file ++ ":" ++ str_of_int line ++ " in " ++ func ++ "() -> " ++ context.

Section LogFailureLoop.
Context `{Host}.
Variable callers : list FrameInfo.

(** The [while "test_" not in func] loop of [log_failure], entered with
  the current [level], [func] and [pseudo_trace]; it gives the list
  that [pseudo_trace] holds when the loop is left. The loop ends
  because a [level] past the end of the stack makes
  [get_full_context] raise. *)
Function log_failure_loop (level : nat) (func : string)
  (pseudo_trace : list string)
  {measure (fun level => S (length callers) - level)%nat level}
: result (list string) :=
if contains "test_" func then Return pseudo_trace
else
  match get_full_context callers level with
  | Raise e => Raise e
  | Return (file, line, func', context) =>
      if contains "site-packages" file then Return pseudo_trace
      else
        log_failure_loop (S level) func'
          (pseudo_trace ++ [format_line file line func' context])%list
  end.
Proof.
intros level func _ _ a p context p0 func' file line _ _ _ E _.
assert (level < S (length callers))%nat; [|lia].
unfold get_full_context in E.
destruct (nth_error _ level) eqn:N; [|discriminate].
assert (N' : nth_error (mkFrame "" 0 "" None :: callers) level <> None).
{ destruct level; simpl in *; congruence. }
apply nth_error_Some in N'. exact N'.
Defined.

End LogFailureLoop.

(** [log_failure(msg)], called from a function whose own frame and
    callers are [callers]. *)
Definition log_failure `{Host} (callers : list FrameInfo) (msg : pyval) : M unit :=
  let level := 3%nat in
  let pseudo_trace := [] in
  let func := "" in
  let here :=
    module_frame 276 "log_failure"
      "        (file, line, func, context) = get_full_context(level)" in
  pseudo_trace <- lift (log_failure_loop (here :: callers) level func pseudo_trace) ;;
  let pseudo_trace_str := join newline (rev pseudo_trace) in
  let entry :=
    "FAILURE: " ++ py_str (if truthy msg then msg else VStr "")
      ++ newline ++ pseudo_trace_str in
  append_failure entry.

(** ** Calls, [assert] and [with] *)

(** A Python function as this module calls it: it receives the frames of
    its callers, innermost first, and its arguments. *)
Definition pyfun (Args : Type) : Type := list FrameInfo -> Args -> M pyval.

(** [assert cond, msg] *)
Definition assert_ (cond : bool) (msg : pyval) : M unit :=
  if cond then ret tt else raise (mkExc AssertionError (py_str msg)).

(** What [__exit__] receives: [None] for a block that ended normally,
    otherwise the exception ([exc_type] is its class, [exc_val] the
    instance). *)
Definition exc_info : Type := option PyExc.

Definition exc_val (exc : exc_info) : pyval :=
  match exc with
  | Some e => VExc e
  | None => VNone
  end.

(** [exc_type is not None and issubclass(exc_type, classes)] *)
Definition is_exc_of (exc : exc_info) (classes : list pyclass) : bool :=
  match exc with
  | Some e => issubclass_tuple (exc_class e) classes
  | None => false
  end.

(** Run [m] and hand back how it ended. *)
Definition try_ {A} (m : M A) : M (result A) :=
  fun st => let (r, st') := m st in (Return r, st').

(** [with manager: body], for a manager whose methods are [enter] and
    [exit]; [exit] gives its return value and the manager as it leaves
    it. A true return value suppresses the exception of the block. *)
Definition with_stmt {Self A} (enter : M unit)
    (exit : exc_info -> M (pyval * Self)) (body : M A) : M Self :=
  enter ;;
  r <- try_ body ;;
  match r with
  | Return _ => x <- exit None ;; ret (snd x)
  | Raise e =>
      x <- exit (Some e) ;;
      if truthy (fst x) then ret (snd x) else raise e
  end.

(** ** [CheckContextManager] and its instance [check] *)

Module CheckContextManager.

Definition __enter__ : M unit := ret tt.

(** [callers]: the frame that runs the [with] statement, then its
    callers. *)
Definition __exit__ `{Host} (callers : list FrameInfo) (exc : exc_info)
  : M pyval :=
  if is_exc_of exc [AssertionError] then
    stop <- read_stop_on_fail ;;
    if (stop : bool) then
      write_check_msg VNone ;;
      ret VNone
    else
      msg <- read_check_msg ;;
      (if is_not_None msg then
         log_failure
           (module_frame 64 "__exit__" "                    log_failure(self.msg)"
            :: callers) msg
       else
         log_failure
           (module_frame 66 "__exit__" "                    log_failure(exc_val)"
            :: callers) (exc_val exc)) ;;
      write_check_msg VNone ;;
      ret (VBool true)
  else
    write_check_msg VNone ;;
    ret VNone.

(** [check(msg)] *)
Definition __call__ (msg : pyval) : M unit := write_check_msg msg.

End CheckContextManager.

(** [with check: body] *)
Definition with_check `{Host} {A} (callers : list FrameInfo) (body : M A) : M unit :=
  with_stmt CheckContextManager.__enter__
    (fun exc => v <- CheckContextManager.__exit__ callers exc ;; ret (v, tt))
    body.

(** [with check(msg): body] *)
Definition with_check_msg `{Host} {A} (callers : list FrameInfo) (msg : pyval)
    (body : M A) : M unit :=
  CheckContextManager.__call__ msg ;;
  with_check callers body.

(** ** [check_func] *)

(** [check_func(func)] is [wrapper]; [callers] are the callers of
    [wrapper]. *)
Definition check_func `{Host} {Args} (func : pyfun Args) : pyfun Args :=
  fun callers args =>
    try_except
      (func (module_frame 84 "wrapper" ("            func(" ++ "*args, **kwds)") :: callers)
            args ;;
       ret (VBool true))
      AssertionError
      (fun e =>
         stop <- read_stop_on_fail ;;
         if (stop : bool) then raise e
         else
           log_failure
             (module_frame 89 "wrapper" "            log_failure(e)" :: callers)
             (VExc e) ;;
           ret (VBool false)).

(** ** [CheckRaisesContext] and [raises] *)

Module CheckRaisesContext.

Record t : Type := mk { expected_excs : list pyclass; msg : pyval }.

Definition __init__ (expected_excs : list pyclass) (msg : pyval) : t :=
  mk expected_excs msg.

Definition set_msg (self : t) (msg : pyval) : t :=
  mk (expected_excs self) msg.

Definition __enter__ : M unit := ret tt.

Definition __exit__ `{Host} (callers : list FrameInfo) (self : t)
    (exc : exc_info) : M (pyval * t) :=
  if is_exc_of exc (expected_excs self) then
    ret (VBool true, set_msg self VNone)
  else
    stop <- read_stop_on_fail ;;
    if (stop : bool) then
      ret (VNone, set_msg self VNone)
    else
      (if is_not_None (msg self) then
         log_failure
           (module_frame 235 "__exit__" "                    log_failure(self.msg)"
            :: callers) (msg self)
       else
         log_failure
           (module_frame 237 "__exit__" "                    log_failure(exc_val)"
            :: callers) (exc_val exc)) ;;
      ret (VBool true, set_msg self VNone).

(** [self(callable_, *args, msg=msg)]; it gives [self] back. *)
Definition __call__ `{Host} {Args} (callers : list FrameInfo) (self : t)
    (callable_ : pyfun Args) (args : Args) (msg : pyval) : M t :=
  let self := set_msg self msg in
  callable_
    (module_frame 243 "__call__" ("        callable_(" ++ "*args, **kwargs)")
     :: callers)
    args ;;
  ret self.

End CheckRaisesContext.

(** [raises(ValueError, ..., msg=msg)]: [expected_excs] are the positional
    arguments. *)
Definition raises (expected_excs : list pyclass) (msg : pyval)
  : CheckRaisesContext.t :=
  CheckRaisesContext.__init__ expected_excs msg.

(** [with self: body] for a [CheckRaisesContext]. *)
Definition with_raises `{Host} {A} (callers : list FrameInfo)
    (self : CheckRaisesContext.t) (body : M A) : M CheckRaisesContext.t :=
  with_stmt CheckRaisesContext.__enter__
    (CheckRaisesContext.__exit__ callers self) body.

(** ** Reading the loop of [log_failure] frame by frame *)

(** What [get_full_context] returns for the frame it picks. *)
Definition read_frame `{Host} (fr : FrameInfo)
  : result (string * Z * string * string) :=
  match code_context fr with
  | None => Raise TypeError_None
  | Some [] => Raise IndexError_list
  | Some (first :: _) =>
      Return (relpath (filename fr), lineno fr, function fr, strip first)
  end.

(** The loop of [log_failure] as a walk over the frames still ahead. *)
Fixpoint walk `{Host} (frames : list FrameInfo) (func : string)
    (pseudo_trace : list string) : result (list string) :=
  if contains "test_" func then Return pseudo_trace
  else
    match frames with
    | [] => Raise IndexError_list
    | fr :: rest =>
        match read_frame fr with
        | Raise e => Raise e
        | Return (file, line, func', context) =>
            if contains "site-packages" file then Return pseudo_trace
            else
              walk rest func'
                (pseudo_trace ++ [format_line file line func' context])%list
        end
    end.

(** The line of the pseudo-traceback for a frame:
    ["<path>:<line> in <function>() -> <source text>"]. *)
Definition render `{Host} (fr : FrameInfo) : string :=
  relpath (filename fr) ++ ":" ++ str_of_int (lineno fr) ++ " in "
    ++ function fr ++ "() -> "
    ++ match code_context fr with
       | Some (first :: _) => strip first
       | _ => ""
       end.

(** The frame belongs to installed library code. *)
Definition in_site_packages `{Host} (fr : FrameInfo) : bool :=
  contains "site-packages" (relpath (filename fr)).

(** The function of the frame carries the test marker. *)
Definition is_test_frame (fr : FrameInfo) : bool :=
  contains "test_" (function fr).

(** The source line of the frame is available. *)
Definition has_source (fr : FrameInfo) : bool :=
  match code_context fr with
  | Some (_ :: _) => true
  | _ => false
  end.

(** The entry [log_failure] composes from a message and the collected
    lines. *)
Definition format_entry (msg : pyval) (pseudo_trace : list string) : string :=
  "FAILURE: " ++ py_str (if truthy msg then msg else VStr "")
    ++ newline ++ join newline (rev pseudo_trace).

(** The entry of a failure that a function of this module, called from
    [callers], reports with [msg]; the walk starts at [callers]. *)
Definition entry_for `{Host} (callers : list FrameInfo) (msg : pyval)
  : result string :=
  match walk callers "" [] with
  | Return pseudo_trace => Return (format_entry msg pseudo_trace)
  | Raise e => Raise e
  end.

(** The globals with one more entry in the log. *)
Definition logged (entry : string) (st : state) : state :=
  mkState (_stop_on_fail st) (_failures st ++ [entry])%list (check_msg st).

(** The globals with [check.msg] set to [None]. *)
Definition msg_cleared (st : state) : state :=
  mkState (_stop_on_fail st) (_failures st) VNone.

(** The message a scope reports: its own when it has one, else the
    value of the exception. *)
Definition reported (msg : pyval) (exc : exc_info) : pyval :=
  if is_not_None msg then msg else exc_val exc.

(** The frames a walk collects: a prefix of the frames ahead, ended
    by the first test frame (collected) or by the first frame of
    installed library code (left out). *)
Definition collected_from `{Host} (frames collected : list FrameInfo) : Prop :=
  exists rest,
    frames = (collected ++ rest)%list /\
    Forall (fun fr => has_source fr = true /\ in_site_packages fr = false)
      collected /\
    ((exists inner last,
         collected = (inner ++ [last])%list /\
         is_test_frame last = true /\
         Forall (fun fr => is_test_frame fr = false) inner)
     \/
     (Forall (fun fr => is_test_frame fr = false) collected /\
      exists boundary rest',
        rest = boundary :: rest' /\ in_site_packages boundary = true)).

(** ** The calls the module makes into the code of a test *)

(** The call of [func] with the arguments of the wrapper, as the
    wrapper of [check_func] makes it;
    [callers] are the callers of the wrapper. *)
Definition call_from_wrapper `{Host} {Args} (func : pyfun Args)
    (callers : list FrameInfo) (args : Args) : M pyval :=
  func (module_frame 84 "wrapper" ("            func(" ++ "*args, **kwds)") :: callers)
       args.

(** The call of [callable_] with the remaining arguments, as
    [CheckRaisesContext.__call__] makes it; [callers] are the callers of [__call__]. *)
Definition call_from_raises `{Host} {Args} (callable_ : pyfun Args)
    (callers : list FrameInfo) (args : Args) : M pyval :=
  callable_
    (module_frame 243 "__call__" ("        callable_(" ++ "*args, **kwargs)")
     :: callers)
    args.

(** The exception is an assertion failure. *)
Definition is_assertion (e : PyExc) : bool :=
  issubclass (exc_class e) AssertionError.

(** ** Soft failures of a test, one after the other *)







(** ** A concrete run *)

(** A host whose paths are already relative to the current directory. *)
Definition repo_host : Host :=
  {| relpath := fun path => path;
     module_file := "src/pytest_check/check_methods.py" |}.

Definition test_frame : FrameInfo :=
  mkFrame "tests/test_check.py" 12 "test_values"
    (Some ["    helper(2, 3)" ++ newline]).

Definition helper_frame : FrameInfo :=
  mkFrame "tests/test_check.py" 7 "helper"
    (Some ["    with check: assert a == b" ++ newline]).

Definition pytest_frame : FrameInfo :=
  mkFrame "venv/lib/python3.8/site-packages/_pytest/python.py" 183 "call_fixture"
    (Some ["    result = fixturefunc(**kwargs)" ++ newline]).

Definition script_frame : FrameInfo :=
  mkFrame "run_checks.py" 4 "<module>" (Some ["equal(2, 3)" ++ newline]).

(** [def f(): raise exc] *)
Definition raising (e : PyExc) : pyfun unit := fun _ _ => raise e.

(** [equal(a, b, msg)] on integers, before [check_func] wraps it. *)
Definition equal_body : pyfun (Z * Z * pyval) :=
  fun _ '(a, b, msg) => assert_ (a =? b)%Z msg ;; ret VNone.

(** The lines of the pseudo-traceback for [test_frame] and
    [helper_frame] under [repo_host]. *)
Definition test_line : string :=
  "tests/test_check.py:12 in test_values() -> helper(2, 3)".

Definition helper_line : string :=
  "tests/test_check.py:7 in helper() -> with check: assert a == b".

(** The globals of a session run with strict mode on. *)
Definition strict_state : state := mkState true [] VNone.

(** ** Further notions for the properties of the module *)

(** A run in which the module itself is installed library code. *)
Definition installed_host : Host :=
  {| relpath := fun path => path;
     module_file := "venv/lib/python3.8/site-packages/pytest_check/check_methods.py" |}.

(** The frame of the wrapper of [check_func] while it runs the wrapped
    function. *)
Definition wrapper_frame `{Host} : FrameInfo :=
  module_frame 84 "wrapper" ("            func(" ++ "*args, **kwds)").

(** The walk of [log_failure] over [callers] meets a frame that stops
    it, a test function or installed code, and has the source line of
    that frame and of every frame before it. *)
Definition walkable `{Host} (callers : list FrameInfo) : Prop :=
  exists pre stop rest,
    callers = (pre ++ stop :: rest)%list /\
    Forall (fun fr => has_source fr = true /\ is_test_frame fr = false /\
                      in_site_packages fr = false) pre /\
    has_source stop = true /\
    (is_test_frame stop = true \/ in_site_packages stop = true).

(** A caller between the check and the test: user code with its source,
    not itself marked as a test. *)
Definition is_helper `{Host} (fr : FrameInfo) : Prop :=
  has_source fr = true /\ is_test_frame fr = false /\ in_site_packages fr = false.

(** The log of [st'] is the log of [st] with entries added behind. *)
Definition log_extends (st st' : state) : Prop :=
  exists added, _failures st' = (_failures st ++ added)%list.

(** The computation only ever adds to the log. *)
Definition appends_only {A} (m : M A) : Prop :=
  forall st, log_extends st (snd (m st)).

(** Run in strict mode, the computation leaves the log alone and
    strict mode on. *)
Definition strict_quiet {A} (m : M A) : Prop :=
  forall st,
    _stop_on_fail st = true ->
    _failures (snd (m st)) = _failures st /\ _stop_on_fail (snd (m st)) = true.

(** The exception comes from the stack walk of [log_failure]. *)
Definition is_walk_error (e : PyExc) : Prop :=
  e = IndexError_list \/ e = TypeError_None.

(** A frame whose source is not available. *)
Definition frozen_frame : FrameInfo :=
  mkFrame "<frozen importlib._bootstrap>" 241 "_call_with_frames_removed" None.

(** A helper of user code whose name happens to contain the marker. *)
Definition latest_frame : FrameInfo :=
  mkFrame "tests/helpers.py" 21 "latest_value"
    (Some ["    check.is_true(value)" ++ newline]).

(** The line of the pseudo-traceback for [wrapper_frame] under
    [repo_host]. *)
Definition wrapper_line : string :=
  "src/pytest_check/check_methods.py:84 in wrapper() -> func("
    ++ "*args, **kwds)".

(** An exception class of a test: [class MyKeyError(KeyError)]. *)
Definition MyKeyError : pyclass := UserClass "MyKeyError" KeyError.

(** ** The predicates

    The predicates take any object; they are modelled on the objects
    whose comparisons Python itself defines, [None], booleans,
    integers and strings ([scalar]); floats and objects with
    comparison methods of their own are not among them. [is_true],
    [is_none] and [is_instance] and their opposites take any
    [pyval]. *)

Inductive scalar : Type :=
| SNone
| SBool (b : bool)
| SInt (z : Z)
| SStr (s : string).

(** [type(x).__name__] *)
Definition type_name (x : scalar) : string :=
  match x with
  | SNone => "NoneType"
  | SBool _ => "bool"
  | SInt _ => "int"
  | SStr _ => "str"
  end.

(** The integer a boolean or an integer stands for ([bool] is a
    subclass of [int]: [False] is 0 and [True] is 1). *)
Definition number_of (x : scalar) : option Z :=
  match x with
  | SBool true => Some 1%Z
  | SBool false => Some 0%Z
  | SInt z => Some z
  | _ => None
  end.

(** [a == b] *)
Definition py_eq (a b : scalar) : bool :=
  match number_of a, number_of b with
  | Some x, Some y => (x =? y)%Z
  | _, _ =>
      match a, b with
      | SNone, SNone => true
      | SStr s, SStr t => (s =? t)%string
      | _, _ => false
      end
  end.

(** How [a] and [b] are ordered, when Python orders them: integers
    and booleans by value, strings by code points. *)
Definition py_compare (a b : scalar) : option comparison :=
  match number_of a, number_of b with
  | Some x, Some y => Some (x ?= y)%Z
  | _, _ =>
      match a, b with
      | SStr s, SStr t => Some (String.compare s t)
      | _, _ => None
      end
  end.

(** The [TypeError] of an ordering that Python does not define. *)
Definition ordering_error (op : string) (a b : scalar) : PyExc :=
  mkExc TypeError
    ("'" ++ op ++ "' not supported between instances of '"
       ++ type_name a ++ "' and '" ++ type_name b ++ "'").

(** [a op b] for an ordering operator, [holds] telling which outcomes
    of the comparison make it true. *)
Definition py_order (op : string) (holds : comparison -> bool) (a b : scalar)
  : result bool :=
  match py_compare a b with
  | Some c => Return (holds c)
  | None => Raise (ordering_error op a b)
  end.

Definition is_Gt (c : comparison) : bool :=
  match c with Gt => true | _ => false end.

Definition is_Lt (c : comparison) : bool :=
  match c with Lt => true | _ => false end.

Definition is_Eq (c : comparison) : bool :=
  match c with Eq => true | _ => false end.


(** A function body that is [assert cond, msg]. *)
Definition asserting (cond : bool) (msg : pyval) : M pyval :=
  assert_ cond msg ;; ret VNone.

Definition equal `{Host} : pyfun (scalar * scalar * pyval) :=
  check_func (fun _ '(a, b, msg) => asserting (py_eq a b) msg).








Definition greater `{Host} : pyfun (scalar * scalar * pyval) :=
  check_func
    (fun _ '(a, b, msg) => cond <- lift (py_order ">" is_Gt a b) ;; asserting cond msg).

Definition greater_equal `{Host} : pyfun (scalar * scalar * pyval) :=
  check_func
    (fun _ '(a, b, msg) =>
       cond <- lift (py_order ">=" (fun c => negb (is_Lt c)) a b) ;;
       asserting cond msg).

Definition less `{Host} : pyfun (scalar * scalar * pyval) :=
  check_func
    (fun _ '(a, b, msg) => cond <- lift (py_order "<" is_Lt a b) ;; asserting cond msg).

Definition less_equal `{Host} : pyfun (scalar * scalar * pyval) :=
  check_func
    (fun _ '(a, b, msg) =>
       cond <- lift (py_order "<=" (fun c => negb (is_Gt c)) a b) ;;
       asserting cond msg).

(** The entry of a predicate that fails with [msg]. *)
Definition failure_entry `{Host} (callers : list FrameInfo) (msg : pyval)
  : result string :=
  entry_for callers (VExc (mkExc AssertionError (py_str msg))).

(** The outcome of a soft check of [cond]: [True] and nothing else
    when it holds, [False] and the one entry more when it does not. *)
Definition checks_as (outcome : result pyval * state) (cond : bool)
    (entry : string) (st : state) : Prop :=
  outcome = if cond then (Return (VBool true), st)
            else (Return (VBool false), logged entry st).

(** The outcome of a check of [cond] in strict mode. *)
Definition checks_strictly (outcome : result pyval * state) (cond : bool)
    (msg : pyval) (st : state) : Prop :=
  outcome = if cond then (Return (VBool true), st)
            else (Raise (mkExc AssertionError (py_str msg)), st).

(** ** The list object behind [_failures]

    [_failures] is a name bound to a list object: [clear_failures]
    binds it to a new empty list, [get_failures] hands out the object
    it is bound to, and [log_failure] appends to that object in place.
    Here the list objects live in a store, addressed by position. *)

Module Heap.

Record store : Type := mk {
objects : list (list string);
bound : nat
}.

(** After [_failures = []] at import. *)
Definition initial : store := mk [[]] 0.

(** The name is bound to an object of the store. *)
Definition well_formed (s : store) : Prop := (bound s < length (objects s))%nat.

(** What the list object at address [r] holds. *)
Definition contents (s : store) (r : nat) : list string :=
nth r (objects s) [].

Fixpoint update (n : nat) (f : list string -> list string)
  (l : list (list string)) : list (list string) :=
match l, n with
| [], _ => []
| x :: rest, O => f x :: rest
| x :: rest, S k => x :: update k f rest
end.

(** [_failures = []]: a new list object, and the name bound to it. *)
Definition clear_failures (s : store) : store :=
mk (objects s ++ [[]])%list (length (objects s)).

(** [return _failures]: the address of the object, not a copy. *)
Definition get_failures (s : store) : nat := bound s.

(** [_failures.append(entry)] *)
Definition append (entry : string) (s : store) : store :=
mk (update (bound s) (fun l => (l ++ [entry])%list) (objects s)) (bound s).

(** [log_failure(msg)] over the store. *)
Definition log_failure `{Host} (callers : list FrameInfo) (msg : pyval)
  (s : store) : result unit * store :=
let level := 3%nat in
let here :=
  module_frame 276 "log_failure"
    "        (file, line, func, context) = get_full_context(level)" in
match log_failure_loop (here :: callers) level "" [] with
| Raise e => (Raise e, s)
| Return pseudo_trace =>
    let pseudo_trace_str := join newline (rev pseudo_trace) in
    let entry :=
      "FAILURE: " ++ py_str (if truthy msg then msg else VStr "")
        ++ newline ++ pseudo_trace_str in
    (Return tt, append entry s)
end.

(** The store and the globals of the flat model show the same log. *)
Definition agrees (s : store) (st : state) : Prop :=
contents s (bound s) = _failures st.

End Heap.

(** ** File names that [os.path.relpath] rejects

    [os.path.relpath] raises for some file names: [ValueError] for an
    empty name and, on Windows, for a file on another drive than the
    current directory; the error of [os.getcwd] when the current
    directory is gone. [relpath] of [Host] is what it returns for the
    others; [relpath_error] gives the exception for a name it rejects.
    [WithPathErrors] is [get_full_context] and [log_failure] with that
    error path. *)

Class PathErrors : Type := {
  relpath_error : string -> option PyExc
}.

Module WithPathErrors.

(** [get_full_context(level)]: [os.path.relpath(filename)] is
  evaluated before [contextlist[0]]. *)
Definition get_full_context `{Host} `{PathErrors} (callers : list FrameInfo)
  (level : nat) : result (string * Z * string * string) :=
let stack :=
  module_frame 253 "get_full_context"
    "    (_, filename, line, funcname, contextlist) = inspect.stack()[level][0:5]"
  :: callers in
match nth_error stack level with
| None => Raise IndexError_list
| Some (mkFrame filename line funcname contextlist) =>
    match relpath_error filename with
    | Some e => Raise e
    | None =>
        let filename := relpath filename in
        match contextlist with
        | None => Raise TypeError_None
        | Some [] => Raise IndexError_list
        | Some (first :: _) => Return (filename, line, funcname, strip first)
        end
    end
end.

Section Loop.
Context `{Host} `{PathErrors}.
Variable callers : list FrameInfo.

(** The [while "test_" not in func] loop of [log_failure]. *)
Function log_failure_loop (level : nat) (func : string)
  (pseudo_trace : list string)
  {measure (fun level => S (length callers) - level)%nat level}
: result (list string) :=
if contains "test_" func then Return pseudo_trace
else
  match get_full_context callers level with
  | Raise e => Raise e
  | Return (file, line, func', context) =>
      if contains "site-packages" file then Return pseudo_trace
      else
        log_failure_loop (S level) func'
          (pseudo_trace ++ [format_line file line func' context])%list
  end.
Proof.
intros level func _ _ a p context p0 func' file line _ _ _ E _.
assert (level < S (length callers))%nat; [|lia].
unfold get_full_context in E.
destruct (nth_error _ level) eqn:N; [|discriminate].
assert (N' : nth_error (mkFrame "" 0 "" None :: callers) level <> None).
{ destruct level; simpl in *; congruence. }
apply nth_error_Some in N'. exact N'.
Defined.

End Loop.

(** [log_failure(msg)], called from a function whose own frame and
  callers are [callers]. *)
Definition log_failure `{Host} `{PathErrors} (callers : list FrameInfo)
  (msg : pyval) : M unit :=
let level := 3%nat in
let pseudo_trace := [] in
let func := "" in
let here :=
  module_frame 276 "log_failure"
    "        (file, line, func, context) = get_full_context(level)" in
pseudo_trace <- lift (log_failure_loop (here :: callers) level func pseudo_trace) ;;
let pseudo_trace_str := join newline (rev pseudo_trace) in
let entry :=
  "FAILURE: " ++ py_str (if truthy msg then msg else VStr "")
    ++ newline ++ pseudo_trace_str in
append_failure entry.

End WithPathErrors.

(** What [WithPathErrors.get_full_context] returns for the frame it
    picks. *)
Definition read_frame_checked `{Host} `{PathErrors} (fr : FrameInfo)
  : result (string * Z * string * string) :=
  match relpath_error (filename fr) with
  | Some e => Raise e
  | None => read_frame fr
  end.

(** The loop of [WithPathErrors.log_failure] as a walk over the frames
    still ahead. *)
Fixpoint walk_checked `{Host} `{PathErrors} (frames : list FrameInfo)
    (func : string) (pseudo_trace : list string) : result (list string) :=
  if contains "test_" func then Return pseudo_trace
  else
    match frames with
    | [] => Raise IndexError_list
    | fr :: rest =>
        match read_frame_checked fr with
        | Raise e => Raise e
        | Return (file, line, func', context) =>
            if contains "site-packages" file then Return pseudo_trace
            else
              walk_checked rest func'
                (pseudo_trace ++ [format_line file line func' context])%list
        end
    end.

(** [os.path.relpath] returns for the file name of the frame. *)
Definition path_accepted `{PathErrors} (fr : FrameInfo) : Prop :=
  relpath_error (filename fr) = None.

(** A helper whose file name [os.path.relpath] accepts. *)
Definition is_helper_checked `{Host} `{PathErrors} (fr : FrameInfo) : Prop :=
  is_helper fr /\ path_accepted fr.

(** The walk meets a frame that stops it (the name of its function
    contains [test_], or its relative path contains [site-packages]),
    has the source line of that frame and of every frame before it, and
    [os.path.relpath] returns for the file names of all of these. *)
Definition walkable_checked `{Host} `{PathErrors} (callers : list FrameInfo)
  : Prop :=
  exists pre stop rest,
    callers = (pre ++ stop :: rest)%list /\
    Forall is_helper_checked pre /\
    has_source stop = true /\ path_accepted stop /\
    (is_test_frame stop = true \/ in_site_packages stop = true).

(** The exception is what [os.path.relpath] raises on the file name of
    one of the frames. *)
Definition is_path_error `{PathErrors} (frames : list FrameInfo) (e : PyExc)
  : Prop :=
  exists fr, In fr frames /\ relpath_error (filename fr) = Some e.

(** [e] is what [log_failure] raises, in globals [st], when a function
    of this module whose callers are [callers] calls it. *)
Definition raised_by_log_failure `{Host} (callers : list FrameInfo)
    (e : PyExc) (st : state) : Prop :=
  exists own msg, log_failure (own :: callers) msg st = (Raise e, st).

(** A Windows run from drive C: files on drive D are rejected. *)
Definition drive_c : PathErrors :=
  {| relpath_error := fun path =>
       if String.prefix "D:" path
       then Some (mkExc ValueError "path is on mount 'D:', start on mount 'C:'")
       else None |}.

Definition other_drive_frame : FrameInfo :=
  mkFrame "D:\shared\fixtures.py" 30 "load" None.

(** * Properties *)

Section Loop.
Context `{Host}.

Lemma get_full_context_nth (callers : list FrameInfo) (level : nat) :
  get_full_context callers level =
  match nth_error
          (module_frame 253 "get_full_context"
             "    (_, filename, line, funcname, contextlist) = inspect.stack()[level][0:5]"
           :: callers) level with
  | None => Raise IndexError_list
  | Some fr => read_frame fr
  end.
Proof.
  unfold get_full_context, read_frame.
  destruct (nth_error _ level) as [[f l fn [[|c cs]|]]|]; reflexivity.
Qed.

Lemma skipn_nth_error_cons {A} (l : list A) (n : nat) (x : A) :
  nth_error l n = Some x -> skipn n l = x :: skipn (S n) l.
Proof.
  revert l; induction n as [|n IH]; intros [|y l] E; simpl in *; try discriminate.
  - congruence.
  - now apply IH.
Qed.

Lemma skipn_nth_error_nil {A} (l : list A) (n : nat) :
  nth_error l n = None -> skipn n l = [].
Proof.
  intros E. apply nth_error_None in E. now apply skipn_all2.
Qed.

Lemma walk_unfold (frames : list FrameInfo) func acc :
  walk frames func acc =
  if contains "test_" func then Return acc
  else
    match frames with
    | [] => Raise IndexError_list
    | fr :: rest =>
        match read_frame fr with
        | Raise e => Raise e
        | Return (file, line, func', context) =>
            if contains "site-packages" file then Return acc
            else walk rest func' (acc ++ [format_line file line func' context])%list
        end
    end.
Proof. destruct frames; reflexivity. Qed.

Lemma log_failure_loop_walk (callers : list FrameInfo) level func acc :
  log_failure_loop callers level func acc =
  walk
    (skipn level
       (module_frame 253 "get_full_context"
          "    (_, filename, line, funcname, contextlist) = inspect.stack()[level][0:5]"
        :: callers))
    func acc.
Proof.
  functional induction (log_failure_loop callers level func acc);
    rewrite walk_unfold;
    match goal with
    | E : contains "test_" _ = _ |- _ => rewrite E
    end; try reflexivity.
  all: match goal with
       | E : get_full_context _ _ = _ |- _ =>
           rewrite get_full_context_nth in E;
           destruct (nth_error _ level) as [fr|] eqn:N;
           [ rewrite (skipn_nth_error_cons _ _ N), E
           | rewrite (skipn_nth_error_nil _ _ N) ]
       end; try congruence.
  all: match goal with
       | E : contains "site-packages" _ = _ |- _ => rewrite E
       end; try reflexivity.
  all: try discriminate.
  assumption.
Qed.

(** One call of [log_failure]: the walk starts at the callers of the
    function that reports, whatever that function's own frame is. *)
Lemma log_failure_run (own : FrameInfo) (callers : list FrameInfo)
    (msg : pyval) (st : state) :
  log_failure (own :: callers) msg st =
  match entry_for callers msg with
  | Return entry => (Return tt, logged entry st)
  | Raise e => (Raise e, st)
  end.
Proof.
  unfold log_failure, bind, lift, entry_for.
  rewrite log_failure_loop_walk. cbn [skipn].
  destruct (walk callers "" []); reflexivity.
Qed.

End Loop.

Section Walk.
Context `{Host}.

Lemma read_frame_Return (fr : FrameInfo) file line func context :
  read_frame fr = Return (file, line, func, context) ->
  has_source fr = true /\ file = relpath (filename fr) /\
  func = function fr /\ format_line file line func context = render fr.
Proof.
  unfold read_frame, has_source, render, format_line.
  destruct (code_context fr) as [[|first more]|]; try discriminate.
  intros E; injection E as <- <- <- <-. auto.
Qed.

Lemma walk_collects (frames : list FrameInfo) :
  forall func acc tr,
    contains "test_" func = false ->
    walk frames func acc = Return tr ->
    exists collected,
      collected_from frames collected /\
      tr = (acc ++ map render collected)%list.
Proof.
  induction frames as [|fr frames IH]; intros func acc tr Hf W;
    rewrite walk_unfold, Hf in W; [discriminate|].
  destruct (read_frame fr) as [[[[file line] func'] context]|e] eqn:R;
    [|discriminate].
  destruct (read_frame_Return _ R) as (Hsrc & -> & -> & Hline).
  destruct (contains "site-packages" (relpath (filename fr))) eqn:Hsp.
  - injection W as <-. exists []. split.
    + exists (fr :: frames). repeat split; auto.
      right. split; [constructor|]. now exists fr, frames.
    + now rewrite app_nil_r.
  - rewrite Hline in W.
    destruct (contains "test_" (function fr)) eqn:Ht.
    + rewrite walk_unfold, Ht in W. injection W as <-.
      exists [fr]. split; [|reflexivity].
      exists frames. repeat split; auto.
      left. exists [], fr. repeat split; auto.
    + destruct (IH _ _ _ Ht W) as (collected & (rest & -> & Hok & Hstop) & ->).
      exists (fr :: collected). split.
      * exists rest. repeat split; auto.
        destruct Hstop as [(inner & last & -> & Hl & Hin)|[Hnt Hb]].
        -- left. exists (fr :: inner), last. repeat split; auto.
        -- right. split; auto.
      * cbn [map]. now rewrite <- app_assoc.
Qed.

Lemma walk_test_frame (fr : FrameInfo) (rest : list FrameInfo) :
  is_test_frame fr = true -> in_site_packages fr = false ->
  has_source fr = true ->
  walk (fr :: rest) "" [] = Return [render fr].
Proof.
  unfold is_test_frame, in_site_packages, has_source. intros Ht Hsp Hsrc.
  rewrite walk_unfold. cbn [contains String.prefix orb].
  destruct (read_frame fr) as [[[[file line] func'] context]|e] eqn:R.
  - destruct (read_frame_Return _ R) as (_ & -> & -> & Hline).
    rewrite Hsp, Hline, walk_unfold, Ht. reflexivity.
  - unfold read_frame in R.
    destruct (code_context fr) as [[|first more]|]; discriminate.
Qed.

(** The walk ends well as soon as the stack has a frame of a test
    function or of installed code, with source, and the frames before
    it have their source too. *)
Lemma walk_defined (pre : list FrameInfo) :
  forall (stop : FrameInfo) (rest : list FrameInfo) func acc,
    Forall (fun fr => has_source fr = true) pre ->
    has_source stop = true ->
    is_test_frame stop = true \/ in_site_packages stop = true ->
    exists tr, walk (pre ++ stop :: rest)%list func acc = Return tr.
Proof.
  induction pre as [|fr pre IH]; intros stop rest func acc Hpre Hsrc Hstop;
    cbn [app]; rewrite walk_unfold;
    (destruct (contains "test_" func); [now eexists|]).
  - unfold has_source in Hsrc. unfold read_frame.
    destruct (code_context stop) as [[|l ls]|] eqn:C; try discriminate.
    fold (in_site_packages stop).
    destruct (in_site_packages stop) eqn:Sp; [now eexists|].
    destruct Hstop as [T|F]; [|discriminate].
    rewrite walk_unfold. unfold is_test_frame in T. rewrite T. now eexists.
  - inversion Hpre as [|? ? Hfr Hpre']; subst.
    unfold has_source in Hfr. unfold read_frame.
    destruct (code_context fr) as [[|l ls]|] eqn:C; try discriminate.
    destruct (contains "site-packages" (relpath (filename fr)));
      [now eexists|].
    now apply IH.
Qed.

Lemma entry_for_defined (pre : list FrameInfo) (stop : FrameInfo)
    (rest : list FrameInfo) (msg : pyval) :
  Forall (fun fr => has_source fr = true) pre ->
  has_source stop = true ->
  is_test_frame stop = true \/ in_site_packages stop = true ->
  exists entry, entry_for (pre ++ stop :: rest)%list msg = Return entry.
Proof.
  intros Hpre Hsrc Hstop. unfold entry_for.
  destruct (@walk_defined pre stop rest "" [] Hpre Hsrc Hstop) as (tr & ->).
  now eexists.
Qed.

End Walk.

Section PseudoTrace.
Context `{Host}.

(** C9. Every entry that [log_failure] appends has the trace of the
    frames collected walking outward from the caller of the reporting
    function: each is rendered as
    ["<path>:<line> in <function>() -> <source text>"]; the collected
    frames end with the first frame whose function carries the test
    marker (collected last) or just before the first frame of
    installed library code (left out), and none of them is a frame of
    installed library code; the trace joins the lines in reverse
    order of collection, so a collected test frame is its first line;
    and a failure detected directly in a test function of user code
    gives the line of that test function as the trace. *)
Theorem log_failure_pseudo_trace (own : FrameInfo) (callers : list FrameInfo)
    (msg : pyval) (st : state) :
  (forall st',
      log_failure (own :: callers) msg st = (Return tt, st') ->
      exists collected,
        collected_from callers collected /\
        st' = logged
                ("FAILURE: " ++ py_str (if truthy msg then msg else VStr "")
                   ++ newline ++ join newline (rev (map render collected)))
                st /\
        (forall inner last,
            collected = (inner ++ [last])%list ->
            rev (map render collected)
            = render last :: rev (map render inner)))
  /\
  (forall test rest,
      callers = test :: rest ->
      is_test_frame test = true -> in_site_packages test = false ->
      has_source test = true ->
      log_failure (own :: callers) msg st
      = (Return tt,
         logged
           ("FAILURE: " ++ py_str (if truthy msg then msg else VStr "")
              ++ newline ++ render test)
           st)).
Proof.
  rewrite log_failure_run. unfold entry_for, format_entry. split.
  - intros st' L.
    destruct (walk callers "" []) as [tr|e] eqn:W; [|discriminate].
    injection L as <-.
    destruct (walk_collects callers "" [] eq_refl W) as (collected & Hc & ->).
    exists collected. repeat split; auto.
    intros inner last ->. now rewrite map_app, rev_app_distr.
  - intros test rest -> Ht Hsp Hsrc.
    erewrite walk_test_frame by eassumption. reflexivity.
Qed.

End PseudoTrace.

Section Components.
Context `{Host}.

Lemma check_exit_run (callers : list FrameInfo) (exc : exc_info) (st : state) :
  CheckContextManager.__exit__ callers exc st =
  if is_exc_of exc [AssertionError] then
    if _stop_on_fail st then (Return VNone, msg_cleared st)
    else
      match entry_for callers (reported (check_msg st) exc) with
      | Return entry => (Return (VBool true), msg_cleared (logged entry st))
      | Raise e => (Raise e, st)
      end
  else (Return VNone, msg_cleared st).
Proof.
  unfold CheckContextManager.__exit__, reported.
  destruct (is_exc_of exc [AssertionError]); [|reflexivity].
  unfold bind at 1. unfold read_stop_on_fail.
  destruct (_stop_on_fail st) eqn:S; [reflexivity|].
  unfold bind at 1. unfold read_check_msg.
  unfold bind at 1.
  destruct (is_not_None (check_msg st));
    rewrite log_failure_run;
    destruct (entry_for callers _); reflexivity.
Qed.

Lemma raises_exit_run (callers : list FrameInfo) (self : CheckRaisesContext.t)
    (exc : exc_info) (st : state) :
  CheckRaisesContext.__exit__ callers self exc st =
  if is_exc_of exc (CheckRaisesContext.expected_excs self) then
    (Return (VBool true, CheckRaisesContext.set_msg self VNone), st)
  else if _stop_on_fail st then
    (Return (VNone, CheckRaisesContext.set_msg self VNone), st)
  else
    match entry_for callers (reported (CheckRaisesContext.msg self) exc) with
    | Return entry =>
        (Return (VBool true, CheckRaisesContext.set_msg self VNone),
         logged entry st)
    | Raise e => (Raise e, st)
    end.
Proof.
  unfold CheckRaisesContext.__exit__, reported.
  destruct (is_exc_of exc _); [reflexivity|].
  unfold bind at 1. unfold read_stop_on_fail.
  destruct (_stop_on_fail st) eqn:S; [reflexivity|].
  unfold bind at 1.
  destruct (is_not_None (CheckRaisesContext.msg self));
    rewrite log_failure_run;
    destruct (entry_for callers _); reflexivity.
Qed.

(** [with check: body], from how [body] ends. *)
Lemma with_check_run {A} (callers : list FrameInfo) (body : M A) (st : state) :
  with_check callers body st =
  match body st with
  | (Return _, st') => (Return tt, msg_cleared st')
  | (Raise e, st') =>
      if issubclass (exc_class e) AssertionError then
        if _stop_on_fail st' then (Raise e, msg_cleared st')
        else
          match entry_for callers (reported (check_msg st') (Some e)) with
          | Return entry => (Return tt, msg_cleared (logged entry st'))
          | Raise e' => (Raise e', st')
          end
      else (Raise e, msg_cleared st')
  end.
Proof.
  unfold with_check, with_stmt, CheckContextManager.__enter__.
  unfold bind at 1. unfold ret at 1.
  unfold bind at 1. unfold try_.
  destruct (body st) as [[v|e] st'].
  - unfold bind at 1. unfold bind at 1. rewrite check_exit_run. reflexivity.
  - unfold bind at 1. unfold bind at 1. rewrite check_exit_run.
    cbn [is_exc_of issubclass_tuple existsb]. rewrite orb_false_r.
    destruct (issubclass (exc_class e) AssertionError); [|reflexivity].
    destruct (_stop_on_fail st'); [reflexivity|].
    destruct (entry_for callers _); reflexivity.
Qed.

(** [with raises(...): body], from how [body] ends. *)
Lemma with_raises_run {A} (callers : list FrameInfo)
    (self : CheckRaisesContext.t) (body : M A) (st : state) :
  with_raises callers self body st =
  let exit exc st' :=
    if is_exc_of exc (CheckRaisesContext.expected_excs self) then
      (Return (CheckRaisesContext.set_msg self VNone), st')
    else if _stop_on_fail st' then
      match exc with
      | Some e => (Raise e, st')
      | None => (Return (CheckRaisesContext.set_msg self VNone), st')
      end
    else
      match entry_for callers (reported (CheckRaisesContext.msg self) exc) with
      | Return entry =>
          (Return (CheckRaisesContext.set_msg self VNone), logged entry st')
      | Raise e' => (Raise e', st')
      end in
  match body st with
  | (Return _, st') => exit None st'
  | (Raise e, st') => exit (Some e) st'
  end.
Proof.
  unfold with_raises, with_stmt, CheckRaisesContext.__enter__.
  unfold bind at 1. unfold ret at 1.
  unfold bind at 1. unfold try_.
  destruct (body st) as [[v|e] st']; cbv zeta.
  - unfold bind at 1. rewrite raises_exit_run.
    cbn [is_exc_of].
    destruct (_stop_on_fail st'); [reflexivity|].
    destruct (entry_for callers _); reflexivity.
  - unfold bind at 1. rewrite raises_exit_run.
    destruct (is_exc_of (Some e) _); [reflexivity|].
    destruct (_stop_on_fail st'); [reflexivity|].
    destruct (entry_for callers _); reflexivity.
Qed.

(** The wrapper of [check_func], from how the wrapped function ends. *)
Lemma check_func_run {Args} (func : pyfun Args) (callers : list FrameInfo)
    (args : Args) (st : state) :
  check_func func callers args st =
  match call_from_wrapper func callers args st with
  | (Return _, st') => (Return (VBool true), st')
  | (Raise e, st') =>
      if issubclass (exc_class e) AssertionError then
        if _stop_on_fail st' then (Raise e, st')
        else
          match entry_for callers (VExc e) with
          | Return entry => (Return (VBool false), logged entry st')
          | Raise e' => (Raise e', st')
          end
      else (Raise e, st')
  end.
Proof.
  unfold check_func, call_from_wrapper, try_except.
  unfold bind at 1.
  destruct (func _ args st) as [[v|e] st']; [reflexivity|].
  destruct (issubclass (exc_class e) AssertionError); [|reflexivity].
  unfold bind at 1. unfold read_stop_on_fail.
  destruct (_stop_on_fail st'); [reflexivity|].
  unfold bind at 1. rewrite log_failure_run.
  destruct (entry_for callers _); reflexivity.
Qed.

End Components.

Section Classes.

Lemma issubclass_user (name : string) (base d : pyclass) :
  issubclass (UserClass name base) d =
  pyclass_eqb d (UserClass name base) || issubclass base d.
Proof. reflexivity. Qed.

Lemma TypeError_not_ValueError (c : pyclass) :
  issubclass c TypeError = true -> issubclass c ValueError = false.
Proof.
  induction c; try (vm_compute; congruence).
  rewrite !issubclass_user. cbn [pyclass_eqb].
  unfold pyclass_eqb.
  destruct (pyclass_eq_dec TypeError _); [discriminate|].
  destruct (pyclass_eq_dec ValueError _); [discriminate|].
  exact IHc.
Qed.

Lemma is_exc_of_one (e : PyExc) (c : pyclass) :
  is_exc_of (Some e) [c] = issubclass (exc_class e) c.
Proof. cbn. apply orb_false_r. Qed.

End Classes.

Section Wrapper.
Context `{Host}.

(** C1, as amended. For the wrapper of [check_func] around any
    function and any arguments: when the function returns, the
    wrapper returns [True] and leaves the globals as the function
    left them (it adds nothing to the log); when the function raises
    an assertion failure and strict mode is on, the wrapper raises
    that same failure and logs nothing; when strict mode is off it
    calls [log_failure] with the failure and, that call having
    composed its entry, returns [False] with the one entry appended;
    when the function raises any other exception, the wrapper lets
    it through and logs nothing. *)
Theorem check_func_contract {Args} (func : pyfun Args)
    (callers : list FrameInfo) (args : Args) (st st' : state) :
  (forall v,
      call_from_wrapper func callers args st = (Return v, st') ->
      check_func func callers args st = (Return (VBool true), st'))
  /\
  (forall e,
      call_from_wrapper func callers args st = (Raise e, st') ->
      is_assertion e = true -> _stop_on_fail st' = true ->
      check_func func callers args st = (Raise e, st'))
  /\
  (forall e entry,
      call_from_wrapper func callers args st = (Raise e, st') ->
      is_assertion e = true -> _stop_on_fail st' = false ->
      entry_for callers (VExc e) = Return entry ->
      check_func func callers args st = (Return (VBool false), logged entry st'))
  /\
  (forall e,
      call_from_wrapper func callers args st = (Raise e, st') ->
      is_assertion e = false ->
      check_func func callers args st = (Raise e, st')).
Proof.
  unfold is_assertion.
  repeat split; intros; rewrite check_func_run;
    repeat match goal with
           | E : _ = _ |- _ => rewrite E
           end; reflexivity.
Qed.

End Wrapper.

Section CheckScope.
Context `{Host}.

(** C2, as amended. Every exit of the shared [check] scope, the
    message being the one [check(msg)] configured ([None] for none):
    on an assertion failure with strict mode off the scope calls
    [log_failure] with the configured message when there is one,
    else with the value of the failure, and, that call having
    composed its entry, one entry is appended, the message is reset
    and [True] is returned, which suppresses the exception; on an
    assertion failure with strict mode on, and on anything else, a
    clean exit included, nothing is logged, the message is reset and
    [None] is returned, which suppresses nothing; so every exit that
    returns leaves the message at [None], and the activation after
    it reports with the value of its own failure. *)
Theorem check_exit_contract (callers : list FrameInfo) (exc : exc_info)
    (msg : pyval) (st : state) :
  let configured := snd (CheckContextManager.__call__ msg st) in
  (forall entry,
      is_exc_of exc [AssertionError] = true -> _stop_on_fail st = false ->
      entry_for callers (if is_not_None msg then msg else exc_val exc)
        = Return entry ->
      CheckContextManager.__exit__ callers exc configured =
      (Return (VBool true), msg_cleared (logged entry st)))
  /\
  (is_exc_of exc [AssertionError] = true -> _stop_on_fail st = true ->
   CheckContextManager.__exit__ callers exc configured
   = (Return VNone, msg_cleared st))
  /\
  (is_exc_of exc [AssertionError] = false ->
   CheckContextManager.__exit__ callers exc configured
   = (Return VNone, msg_cleared st))
  /\
  (forall r st',
      CheckContextManager.__exit__ callers exc configured = (Return r, st') ->
      check_msg st' = VNone /\
      forall callers' exc' entry',
        _stop_on_fail st' = false -> is_exc_of exc' [AssertionError] = true ->
        entry_for callers' (exc_val exc') = Return entry' ->
        CheckContextManager.__exit__ callers' exc' st' =
        (Return (VBool true), msg_cleared (logged entry' st'))).
Proof.
  intros configured.
  assert (Reset : forall r st',
             CheckContextManager.__exit__ callers exc configured
             = (Return r, st') ->
             check_msg st' = VNone).
  { intros r st'. rewrite check_exit_run.
    destruct (is_exc_of exc _); [destruct (_stop_on_fail configured)|];
      try destruct (entry_for callers _); intros E;
      inversion E; reflexivity. }
  split; [|split; [|split]].
  - intros entry A S E. rewrite check_exit_run, A.
    change (_stop_on_fail configured) with (_stop_on_fail st).
    change (check_msg configured) with msg.
    rewrite S. unfold reported. rewrite E. reflexivity.
  - intros A S. rewrite check_exit_run, A.
    change (_stop_on_fail configured) with (_stop_on_fail st).
    rewrite S. reflexivity.
  - intros A. rewrite check_exit_run, A. reflexivity.
  - intros r st' E. pose proof (Reset _ _ E) as N. split; [exact N|].
    intros callers' exc' entry' S A E'. rewrite check_exit_run, A, S.
    unfold reported. rewrite N. cbn [is_not_None]. now rewrite E'.
Qed.

End CheckScope.

Section RaisesScope.
Context `{Host}.

(** C4, as amended. A [raises(ValueError)] scope around a block:
    when the block raises [ValueError], the exception is suppressed
    and the globals stay as the block left them (no entry); when it
    raises an exception that is no [ValueError], as [TypeError] is,
    with strict mode off, the scope calls [log_failure] with the
    configured message when there is one, else with the exception,
    and, that call having composed its entry, one entry is appended
    and the [with] statement ends normally; with strict mode on, the
    same exception leaves the [with] statement and nothing is
    logged. *)
Theorem raises_ValueError_contract {A} (callers : list FrameInfo)
    (msg : pyval) (body : M A) (e : PyExc) (st st' : state) :
  body st = (Raise e, st') ->
  (issubclass (exc_class e) ValueError = true ->
   with_raises callers (raises [ValueError] msg) body st =
   (Return (raises [ValueError] VNone), st'))
  /\
  (issubclass (exc_class e) ValueError = false -> _stop_on_fail st' = false ->
   forall entry,
     entry_for callers (if is_not_None msg then msg else VExc e) = Return entry ->
     with_raises callers (raises [ValueError] msg) body st =
     (Return (raises [ValueError] VNone), logged entry st'))
  /\
  (issubclass (exc_class e) ValueError = false -> _stop_on_fail st' = true ->
   with_raises callers (raises [ValueError] msg) body st = (Raise e, st'))
  /\
  (exc_class e = TypeError -> issubclass (exc_class e) ValueError = false).
Proof.
  intros B. rewrite with_raises_run, B. cbv beta iota zeta.
  cbn [raises CheckRaisesContext.__init__ CheckRaisesContext.expected_excs
       CheckRaisesContext.msg].
  rewrite is_exc_of_one. split; [|split; [|split]].
  - intros V. now rewrite V.
  - intros T S entry E. rewrite T, S.
    unfold reported. cbn [exc_val]. now rewrite E.
  - intros T S. now rewrite T, S.
  - intros ->. reflexivity.
Qed.

End RaisesScope.

Section Unexpected.
Context `{Host}.

(** C5, as amended. An exception that is not an assertion failure
    leaves the [check] scope and the wrapper of [check_func] as it
    is, whatever the strict mode, and nothing is logged. In a
    [raises] scope an exception of none of the expected classes
    leaves the scope, with nothing logged, when strict mode is on;
    when strict mode is off the scope calls [log_failure] for it
    and, that call having composed its entry, appends one entry and
    suppresses it. *)
Theorem unexpected_exception_contract (callers : list FrameInfo)
    (e : PyExc) (st st' : state) :
  (forall A (body : M A),
      body st = (Raise e, st') -> is_assertion e = false ->
      with_check callers body st = (Raise e, msg_cleared st'))
  /\
  (forall Args (func : pyfun Args) args,
      call_from_wrapper func callers args st = (Raise e, st') ->
      is_assertion e = false ->
      check_func func callers args st = (Raise e, st'))
  /\
  (forall A (body : M A) self,
      body st = (Raise e, st') ->
      is_exc_of (Some e) (CheckRaisesContext.expected_excs self) = false ->
      _stop_on_fail st' = true ->
      with_raises callers self body st = (Raise e, st'))
  /\
  (forall A (body : M A) self entry,
      body st = (Raise e, st') ->
      is_exc_of (Some e) (CheckRaisesContext.expected_excs self) = false ->
      _stop_on_fail st' = false ->
      entry_for callers
        (if is_not_None (CheckRaisesContext.msg self)
         then CheckRaisesContext.msg self else VExc e) = Return entry ->
      with_raises callers self body st =
      (Return (CheckRaisesContext.set_msg self VNone), logged entry st')).
Proof.
  unfold is_assertion. repeat split.
  - intros A body B N. now rewrite with_check_run, B, N.
  - intros Args func args B N. now rewrite check_func_run, B, N.
  - intros A body self B N S. rewrite with_raises_run, B. cbv beta iota zeta.
    now rewrite N, S.
  - intros A body self entry B N S E. rewrite with_raises_run, B. cbv beta iota zeta.
    rewrite N, S. unfold reported. cbn [exc_val]. now rewrite E.
Qed.

(** C6, as amended. A [raises] scope whose block ends without an
    exception: with strict mode on, the exit logs nothing and the
    globals stay as the block left them; with strict mode off, the
    exit calls [log_failure] with the configured message when there
    is one, else with [None], and, that call having composed its
    entry, one entry is appended; its text is the configured message
    when that counts as true, and empty otherwise. *)
Theorem raises_no_exception_contract {A} (callers : list FrameInfo)
    (self : CheckRaisesContext.t) (body : M A) (v : A) (st st' : state) :
  body st = (Return v, st') ->
  (_stop_on_fail st' = true ->
   with_raises callers self body st =
   (Return (CheckRaisesContext.set_msg self VNone), st'))
  /\
  (_stop_on_fail st' = false ->
   forall entry,
     entry_for callers
       (if is_not_None (CheckRaisesContext.msg self)
        then CheckRaisesContext.msg self else VNone) = Return entry ->
     with_raises callers self body st =
     (Return (CheckRaisesContext.set_msg self VNone), logged entry st')
     /\ exists trace,
          entry = "FAILURE: "
                    ++ (if truthy (CheckRaisesContext.msg self)
                        then py_str (CheckRaisesContext.msg self) else "")
                    ++ newline ++ trace).
Proof.
  intros B. rewrite with_raises_run, B. cbv beta iota zeta. cbn [is_exc_of]. split.
  - intros S. now rewrite S.
  - intros S entry E. rewrite S. unfold reported. cbn [exc_val].
    rewrite E. split; [reflexivity|].
    unfold entry_for in E. destruct (walk callers "" []) as [tr|]; [|discriminate].
    injection E as <-. exists (join newline (rev tr)). unfold format_entry.
    destruct (CheckRaisesContext.msg self) as [|b|z|s|x];
      cbn [is_not_None truthy]; try reflexivity.
    + now destruct b.
    + now destruct (z =? 0)%Z.
    + now destruct (s =? "")%string.
Qed.

(** C10, as amended. A [raises()] scope with no expected class
    matches nothing: the subclass test against the empty tuple is
    false for every exception; so with strict mode off, for any
    exception of the block, an assertion failure included, the scope
    calls [log_failure] and, that call having composed its entry,
    the exception is logged as one entry and suppressed; with strict
    mode on it leaves the scope as it is, nothing logged. *)
Theorem raises_nothing_expected {A} (callers : list FrameInfo) (msg : pyval)
    (body : M A) (e : PyExc) (st st' : state) :
  body st = (Raise e, st') ->
  is_exc_of (Some e) (CheckRaisesContext.expected_excs (raises [] msg)) = false
  /\
  (_stop_on_fail st' = false ->
   forall entry,
     entry_for callers (if is_not_None msg then msg else VExc e) = Return entry ->
     with_raises callers (raises [] msg) body st =
     (Return (raises [] VNone), logged entry st'))
  /\
  (_stop_on_fail st' = true ->
   with_raises callers (raises [] msg) body st = (Raise e, st')).
Proof.
  intros B. split; [reflexivity|].
  rewrite with_raises_run, B. cbv beta iota zeta.
  cbn [raises CheckRaisesContext.__init__ CheckRaisesContext.expected_excs
       CheckRaisesContext.msg is_exc_of issubclass_tuple existsb].
  split.
  - intros S entry E. rewrite S. unfold reported. cbn [exc_val]. now rewrite E.
  - intros S. now rewrite S.
Qed.

End Unexpected.

Section Strict.
Context `{Host}.

(** C8. Once [set_stop_on_fail(True)] has run, a wrapped function
    that fails its assertion, and a [with check:] block that fails
    an assertion, raise that failure to the caller, and the log
    after the attempt is the log before it. *)
Theorem strict_mode_propagates (callers : list FrameInfo) (st0 : state)
    (e : PyExc) (st' : state) :
  let st := snd (set_stop_on_fail true st0) in
  is_assertion e = true ->
  _stop_on_fail st' = true -> _failures st' = _failures st ->
  (forall Args (func : pyfun Args) args,
      call_from_wrapper func callers args st = (Raise e, st') ->
      fst (check_func func callers args st) = Raise e /\
      _failures (snd (check_func func callers args st)) = _failures st)
  /\
  (forall A (body : M A),
      body st = (Raise e, st') ->
      fst (with_check callers body st) = Raise e /\
      _failures (snd (with_check callers body st)) = _failures st).
Proof.
  intros st As S L. unfold is_assertion in *. split.
  - intros Args func args B. now rewrite check_func_run, B, As, S.
  - intros A body B. now rewrite with_check_run, B, As, S.
Qed.

End Strict.

Section Recorder.
Context `{Host}.


(** Outside of a test and of installed code the walk runs off the
    stack: [log_failure] then raises [IndexError] and logs nothing. *)
Lemma log_failure_off_the_stack (own frame : FrameInfo) (msg : pyval)
    (st : state) :
  is_test_frame frame = false -> in_site_packages frame = false ->
  has_source frame = true ->
  log_failure (own :: [frame]) msg st = (Raise IndexError_list, st).
Proof.
  unfold is_test_frame, in_site_packages, has_source. intros T S C.
  rewrite log_failure_run. unfold entry_for.
  rewrite walk_unfold. cbn [contains String.prefix orb].
  unfold read_frame. destruct (code_context frame) as [[|l ls]|]; try discriminate.
  rewrite S, walk_unfold, T. reflexivity.
Qed.




End Recorder.

Section RaisesCall.
Context `{Host}.

Lemma raises_call_run {Args} (callers : list FrameInfo)
    (self : CheckRaisesContext.t) (callable_ : pyfun Args) (args : Args)
    (msg : pyval) (st : state) :
  CheckRaisesContext.__call__ callers self callable_ args msg st =
  match call_from_raises callable_ callers args st with
  | (Return _, st') => (Return (CheckRaisesContext.set_msg self msg), st')
  | (Raise e, st') => (Raise e, st')
  end.
Proof.
  unfold CheckRaisesContext.__call__, call_from_raises, bind.
  destruct (callable_ _ args st) as [[v|e] st']; reflexivity.
Qed.

End RaisesCall.

(** C7. For [raises(ValueError)(f)], where [f] raises [ValueError] and
    strict mode is off: [__call__] runs [f] outside of any [with]
    block, so the [ValueError] reaches the caller and no scope is
    returned, while the same [f] run in [with raises(ValueError):] is
    suppressed. *)
Theorem raises_call_lets_expected_exception_out :
  let e := mkExc ValueError "bad value" in
  CheckRaisesContext.__call__ (H:=repo_host) [test_frame]
    (raises [ValueError] VNone) (raising e) tt VNone initial_state
  = (Raise e, initial_state)
  /\
  with_raises (H:=repo_host) [test_frame] (raises [ValueError] VNone)
    (raising e [test_frame] tt) initial_state
  = (Return (raises [ValueError] VNone), initial_state).
Proof. split; reflexivity. Qed.

(** * The properties on a concrete run *)

(** A check in a script, with neither a test function nor installed
    code on the stack: [log_failure] raises out of the wrapper. *)
Lemma check_in_a_script :
  check_func (H:=repo_host) equal_body [script_frame] (2, 3, VNone)%Z
    initial_state
  = (Raise IndexError_list, initial_state).
Proof. reflexivity. Qed.

Lemma check_func_contract_witness :
  check_func (H:=repo_host) equal_body [test_frame; pytest_frame]
    (2, 2, VStr "custom")%Z initial_state
  = (Return (VBool true), initial_state)
  /\
  check_func (H:=repo_host) equal_body [test_frame; pytest_frame]
    (2, 3, VStr "custom")%Z strict_state
  = (Raise (mkExc AssertionError "custom"), strict_state)
  /\
  check_func (H:=repo_host) equal_body [test_frame; pytest_frame]
    (2, 3, VStr "custom")%Z initial_state
  = (Return (VBool false),
     logged ("FAILURE: custom" ++ newline ++ test_line) initial_state)
  /\
  check_func (H:=repo_host) (raising (mkExc ValueError "boom"))
    [test_frame; pytest_frame] tt initial_state
  = (Raise (mkExc ValueError "boom"), initial_state).
Proof.
  split; [|split; [|split]].
  - apply (proj1 (@check_func_contract repo_host _ equal_body
                    [test_frame; pytest_frame] (2, 2, VStr "custom")%Z
                    initial_state initial_state) VNone).
    reflexivity.
  - apply (proj1 (proj2 (@check_func_contract repo_host _ equal_body
                    [test_frame; pytest_frame] (2, 3, VStr "custom")%Z
                    strict_state strict_state))); reflexivity.
  - apply (proj1 (proj2 (proj2 (@check_func_contract repo_host _ equal_body
                    [test_frame; pytest_frame] (2, 3, VStr "custom")%Z
                    initial_state initial_state)))
             (mkExc AssertionError "custom")); reflexivity.
  - apply (proj2 (proj2 (proj2 (@check_func_contract repo_host _
                    (raising (mkExc ValueError "boom"))
                    [test_frame; pytest_frame] tt
                    initial_state initial_state)))); reflexivity.
Defined.

(** C1 as stated fails: a wrapped function that raises [ValueError]
    raises no assertion failure, and the wrapper does not return
    [True]. *)
Lemma check_func_other_exception_cex :
  let e := mkExc ValueError "boom" in
  (forall e' st',
      call_from_wrapper (H:=repo_host) (raising e) [test_frame] tt initial_state
      = (Raise e', st') ->
      is_assertion e' = false)
  /\
  fst (check_func (H:=repo_host) (raising e) [test_frame] tt initial_state)
  <> Return (VBool true).
Proof.
  split.
  - intros e' st' E. vm_compute in E. injection E as <- _. reflexivity.
  - vm_compute. discriminate.
Qed.

Lemma check_exit_contract_witness :
  let failure := Some (mkExc AssertionError "assert 1 == 2") in
  let configured := snd (CheckContextManager.__call__ (VStr "custom") initial_state) in
  let strict := snd (CheckContextManager.__call__ (VStr "custom") strict_state) in
  CheckContextManager.__exit__ (H:=repo_host) [test_frame] failure configured
  = (Return (VBool true),
     msg_cleared (logged ("FAILURE: custom" ++ newline ++ test_line) initial_state))
  /\
  CheckContextManager.__exit__ (H:=repo_host) [test_frame] failure strict
  = (Return VNone, msg_cleared strict_state)
  /\
  CheckContextManager.__exit__ (H:=repo_host) [test_frame]
    (Some (mkExc ValueError "boom")) configured
  = (Return VNone, msg_cleared initial_state)
  /\
  check_msg
    (msg_cleared (logged ("FAILURE: custom" ++ newline ++ test_line) initial_state))
  = VNone.
Proof.
  intros failure configured strict.
  split; [|split; [|split]].
  - apply (proj1 (@check_exit_contract repo_host [test_frame] failure
                    (VStr "custom") initial_state));
      reflexivity.
  - apply (proj1 (proj2 (@check_exit_contract repo_host [test_frame] failure
                           (VStr "custom") strict_state))); reflexivity.
  - apply (proj1 (proj2 (proj2 (@check_exit_contract repo_host [test_frame]
                           (Some (mkExc ValueError "boom")) (VStr "custom")
                           initial_state))));
      reflexivity.
  - apply (proj2 (proj2 (proj2 (@check_exit_contract repo_host [test_frame]
                           failure (VStr "custom") initial_state))) (VBool true)).
    reflexivity.
Defined.

(** C2 as stated fails: when the stack walk of [log_failure] fails,
    the exit raises before it resets the message; nothing is logged,
    the message stays, and a later activation logs its failure under
    it. *)
Lemma check_exit_keeps_message_cex :
  let failure := Some (mkExc AssertionError "assert 1 == 2") in
  let configured := snd (CheckContextManager.__call__ (VStr "custom") initial_state) in
  is_exc_of failure [AssertionError] = true
  /\ _stop_on_fail configured = false
  /\ CheckContextManager.__exit__ (H:=repo_host) [script_frame] failure configured
     = (Raise IndexError_list, configured)
  /\ check_msg configured <> VNone
  /\ with_check (H:=repo_host) [test_frame]
       (raise (A:=unit) (mkExc AssertionError "second failure")) configured
     = (Return tt,
        msg_cleared (logged ("FAILURE: custom" ++ newline ++ test_line) configured)).
Proof.
  repeat split. discriminate.
Qed.


Lemma raises_ValueError_contract_witness :
  with_raises (H:=repo_host) [test_frame] (raises [ValueError] VNone)
    (raise (A:=unit) (mkExc ValueError "bad value")) initial_state
  = (Return (raises [ValueError] VNone), initial_state)
  /\
  with_raises (H:=repo_host) [test_frame] (raises [ValueError] VNone)
    (raise (A:=unit) (mkExc TypeError "bad type")) initial_state
  = (Return (raises [ValueError] VNone),
     logged ("FAILURE: bad type" ++ newline ++ test_line) initial_state)
  /\
  with_raises (H:=repo_host) [test_frame] (raises [ValueError] VNone)
    (raise (A:=unit) (mkExc TypeError "bad type")) strict_state
  = (Raise (mkExc TypeError "bad type"), strict_state).
Proof.
  split; [|split].
  - apply (proj1 (@raises_ValueError_contract repo_host unit [test_frame] VNone
                    (raise (mkExc ValueError "bad value"))
                    (mkExc ValueError "bad value") initial_state initial_state
                    eq_refl)).
    reflexivity.
  - apply (proj1 (proj2 (@raises_ValueError_contract repo_host unit [test_frame]
                    VNone (raise (mkExc TypeError "bad type"))
                    (mkExc TypeError "bad type") initial_state initial_state
                    eq_refl))); reflexivity.
  - apply (proj1 (proj2 (proj2 (@raises_ValueError_contract repo_host unit
                    [test_frame]
                    VNone (raise (mkExc TypeError "bad type"))
                    (mkExc TypeError "bad type") strict_state strict_state
                    eq_refl)))); reflexivity.
Defined.

(** C4 as stated fails: with strict mode off, a [TypeError] in a
    [raises(ValueError)] scope of a script, or under a frame without
    source, appends no entry, and the error of the stack walk leaves
    the scope. *)
Lemma raises_TypeError_not_logged_cex :
  let e := mkExc TypeError "bad type" in
  _stop_on_fail initial_state = false
  /\ issubclass (exc_class e) ValueError = false
  /\ with_raises (H:=repo_host) [script_frame] (raises [ValueError] VNone)
       (raise (A:=unit) e) initial_state
     = (Raise IndexError_list, initial_state)
  /\ with_raises (H:=repo_host) [helper_frame; frozen_frame; test_frame]
       (raises [ValueError] VNone) (raise (A:=unit) e) initial_state
     = (Raise TypeError_None, initial_state)
  /\ _failures initial_state = [].
Proof. repeat split. Qed.

(** C5 as stated fails: with strict mode off, a [TypeError] in a
    [raises(ValueError)] scope is neither an assertion failure nor of
    an expected class, and it is suppressed and logged. *)
Lemma unexpected_exception_logged_cex :
  let e := mkExc TypeError "bad type" in
  let self := raises [ValueError] VNone in
  is_assertion e = false
  /\ is_exc_of (Some e) (CheckRaisesContext.expected_excs self) = false
  /\ with_raises (H:=repo_host) [test_frame] self (raise (A:=unit) e) initial_state
     = (Return (raises [ValueError] VNone),
        logged ("FAILURE: bad type" ++ newline ++ test_line) initial_state).
Proof. repeat split. Qed.

Lemma unexpected_exception_contract_witness :
  let e := mkExc KeyError "'k'" in
  with_check (H:=repo_host) [test_frame] (raise (A:=unit) e) initial_state
  = (Raise e, msg_cleared initial_state)
  /\
  check_func (H:=repo_host) (raising e) [test_frame] tt initial_state
  = (Raise e, initial_state)
  /\
  with_raises (H:=repo_host) [test_frame] (raises [ValueError] VNone)
    (raise (A:=unit) e) strict_state
  = (Raise e, strict_state)
  /\
  with_raises (H:=repo_host) [test_frame] (raises [ValueError] VNone)
    (raise (A:=unit) e) initial_state
  = (Return (raises [ValueError] VNone),
     logged ("FAILURE: 'k'" ++ newline ++ test_line) initial_state).
Proof.
  intros e.
  split; [|split; [|split]].
  - apply (proj1 (@unexpected_exception_contract repo_host [test_frame] e
                    initial_state initial_state)); reflexivity.
  - apply (proj1 (proj2 (@unexpected_exception_contract repo_host [test_frame] e
                    initial_state initial_state))); reflexivity.
  - apply (proj1 (proj2 (proj2 (@unexpected_exception_contract repo_host
                    [test_frame] e strict_state strict_state)))); reflexivity.
  - apply (proj2 (proj2 (proj2 (@unexpected_exception_contract repo_host
                    [test_frame] e initial_state initial_state))));
      reflexivity.
Defined.

(** C6 as stated fails: with strict mode off, the exit of a
    [raises(ValueError)] scope whose block raised nothing adds an
    entry to the log. *)
Lemma raises_no_exception_logged_cex :
  ret tt initial_state = (Return tt, initial_state)
  /\ _stop_on_fail initial_state = false
  /\ _failures
       (snd (with_raises (H:=repo_host) [test_frame] (raises [ValueError] VNone)
               (ret tt) initial_state))
     = ["FAILURE: " ++ newline ++ test_line]
  /\ _failures
       (snd (with_raises (H:=repo_host) [test_frame] (raises [ValueError] VNone)
               (ret tt) initial_state))
     <> _failures initial_state.
Proof. repeat split. vm_compute. discriminate. Qed.

Lemma raises_no_exception_contract_witness :
  with_raises (H:=repo_host) [test_frame] (raises [ValueError] VNone) (ret tt)
    strict_state
  = (Return (raises [ValueError] VNone), strict_state)
  /\
  with_raises (H:=repo_host) [test_frame]
    (raises [ValueError] (VStr "expected ValueError")) (ret tt) initial_state
  = (Return (raises [ValueError] VNone),
     logged ("FAILURE: expected ValueError" ++ newline ++ test_line)
       initial_state)
  /\
  with_raises (H:=repo_host) [test_frame] (raises [ValueError] (VInt 0)) (ret tt)
    initial_state
  = (Return (raises [ValueError] VNone),
     logged ("FAILURE: " ++ newline ++ test_line) initial_state).
Proof.
  split; [|split].
  - apply (proj1 (@raises_no_exception_contract repo_host unit [test_frame]
                    (raises [ValueError] VNone) (ret tt) tt
                    strict_state strict_state eq_refl)).
    reflexivity.
  - exact (proj1 (proj2 (@raises_no_exception_contract repo_host unit [test_frame]
                           (raises [ValueError] (VStr "expected ValueError"))
                           (ret tt) tt initial_state initial_state eq_refl)
                    eq_refl
                    ("FAILURE: expected ValueError" ++ newline ++ test_line)
                    eq_refl)).
  - exact (proj1 (proj2 (@raises_no_exception_contract repo_host unit [test_frame]
                           (raises [ValueError] (VInt 0))
                           (ret tt) tt initial_state initial_state eq_refl)
                    eq_refl
                    ("FAILURE: " ++ newline ++ test_line)
                    eq_refl)).
Defined.

Lemma strict_mode_propagates_witness :
  let e := mkExc AssertionError "custom" in
  let st := snd (set_stop_on_fail true (mkState false ["earlier"] VNone)) in
  (fst (check_func (H:=repo_host) equal_body [test_frame]
          (2, 3, VStr "custom")%Z st) = Raise e
   /\ _failures (snd (check_func (H:=repo_host) equal_body [test_frame]
                        (2, 3, VStr "custom")%Z st)) = ["earlier"])
  /\
  (fst (with_check (H:=repo_host) [test_frame] (assert_ false (VStr "custom")) st)
   = Raise e
   /\ _failures (snd (with_check (H:=repo_host) [test_frame]
                        (assert_ false (VStr "custom")) st)) = ["earlier"]).
Proof.
  intros e st.
  pose proof (@strict_mode_propagates repo_host [test_frame]
                (mkState false ["earlier"] VNone) e st
                eq_refl eq_refl eq_refl) as [W B].
  split.
  - apply (W _ equal_body (2, 3, VStr "custom")%Z). reflexivity.
  - apply (B _ (assert_ false (VStr "custom"))). reflexivity.
Defined.

Lemma log_failure_pseudo_trace_witness :
  let own := module_frame (H:=repo_host) 89 "wrapper" "            log_failure(e)" in
  let entry := "FAILURE: custom" ++ newline ++ test_line ++ newline ++ helper_line in
  (exists collected,
      collected_from (H:=repo_host) [helper_frame; test_frame; pytest_frame] collected
      /\ logged entry initial_state
         = logged
             ("FAILURE: custom" ++ newline
                ++ join newline (rev (map (render (H:=repo_host)) collected)))
             initial_state)
  /\
  log_failure (H:=repo_host) [own; test_frame; pytest_frame] (VStr "custom")
    initial_state
  = (Return tt, logged ("FAILURE: custom" ++ newline ++ test_line) initial_state).
Proof.
  intros own entry. split.
  - destruct (proj1 (@log_failure_pseudo_trace repo_host own
                       [helper_frame; test_frame; pytest_frame] (VStr "custom")
                       initial_state) (logged entry initial_state) eq_refl)
      as (collected & C & L & _).
    exists collected. split; [exact C|exact L].
  - apply (proj2 (@log_failure_pseudo_trace repo_host own
                    [test_frame; pytest_frame] (VStr "custom") initial_state)
             test_frame [pytest_frame]); reflexivity.
Defined.

Lemma raises_nothing_expected_witness :
  let e := mkExc AssertionError "assert 1 == 2" in
  with_raises (H:=repo_host) [test_frame] (raises [] VNone) (raise (A:=unit) e)
    initial_state
  = (Return (raises [] VNone),
     logged ("FAILURE: assert 1 == 2" ++ newline ++ test_line) initial_state)
  /\
  with_raises (H:=repo_host) [test_frame] (raises [] VNone) (raise (A:=unit) e)
    strict_state
  = (Raise e, strict_state).
Proof.
  intros e. split.
  - apply (proj1 (proj2 (@raises_nothing_expected repo_host unit [test_frame]
                    VNone (raise e) e initial_state initial_state eq_refl)));
      reflexivity.
  - apply (proj2 (proj2 (@raises_nothing_expected repo_host unit [test_frame]
                    VNone (raise e) e strict_state strict_state eq_refl)));
      reflexivity.
Defined.

(** C10 as stated fails: with strict mode off, a failed [assert] in a
    [raises()] scope of a script is not logged and not suppressed: the
    [IndexError] of the stack walk leaves the scope. *)
Lemma raises_nothing_expected_not_logged_cex :
  let e := mkExc AssertionError "assert 1 == 2" in
  _stop_on_fail initial_state = false
  /\ with_raises (H:=repo_host) [script_frame] (raises [] VNone)
       (raise (A:=unit) e) initial_state
     = (Raise IndexError_list, initial_state)
  /\ _failures initial_state = [].
Proof. repeat split. Qed.

(** * Further properties of the pseudo-traceback *)

Section TraceMore.
Context `{Host}.

Lemma read_frame_source (fr : FrameInfo) :
  has_source fr = true ->
  read_frame fr =
  Return (relpath (filename fr), lineno fr, function fr,
          match code_context fr with
          | Some (first :: _) => strip first
          | _ => ""
          end).
Proof.
  unfold has_source, read_frame.
  destruct (code_context fr) as [[|l ls]|]; try discriminate. reflexivity.
Qed.

Lemma format_line_render (fr : FrameInfo) :
  format_line (relpath (filename fr)) (lineno fr) (function fr)
    match code_context fr with
    | Some (first :: _) => strip first
    | _ => ""
    end
  = render fr.
Proof. reflexivity. Qed.

(** The walk over helpers and then a stopping frame, computed. *)
Lemma walk_exact (pre : list FrameInfo) :
  forall (stop : FrameInfo) (rest : list FrameInfo) func acc,
    contains "test_" func = false ->
    Forall is_helper pre ->
    has_source stop = true ->
    is_test_frame stop = true \/ in_site_packages stop = true ->
    walk (pre ++ stop :: rest)%list func acc =
    Return (acc ++ map render pre
                ++ (if in_site_packages stop then [] else [render stop]))%list.
Proof.
  induction pre as [|fr pre IH]; intros stop rest func acc Hf Hpre Hsrc Hstop;
    cbn [app map]; rewrite walk_unfold, Hf.
  - rewrite (read_frame_source _ Hsrc). fold (in_site_packages stop).
    destruct (in_site_packages stop) eqn:Sp.
    + now rewrite app_nil_r.
    + destruct Hstop as [T|F]; [|discriminate].
      rewrite format_line_render, walk_unfold.
      unfold is_test_frame in T. now rewrite T.
  - inversion Hpre as [|? ? (Hs & Ht & Hsp) Hpre']; subst.
    rewrite (read_frame_source _ Hs). fold (in_site_packages fr).
    rewrite Hsp, format_line_render.
    rewrite (IH stop rest (function fr) _ Ht Hpre' Hsrc Hstop).
    now rewrite <- app_assoc.
Qed.

Lemma walk_walkable (frames : list FrameInfo) :
  forall func acc tr,
    contains "test_" func = false ->
    walk frames func acc = Return tr ->
    walkable frames.
Proof.
  induction frames as [|fr frames IH]; intros func acc tr Hf W;
    rewrite walk_unfold, Hf in W; [discriminate|].
  destruct (read_frame fr) as [[[[file line] func'] context]|e] eqn:R;
    [|discriminate].
  destruct (read_frame_Return _ R) as (Hsrc & -> & -> & Hline).
  fold (in_site_packages fr) in W.
  destruct (in_site_packages fr) eqn:Hsp.
  - exists [], fr, frames. repeat split; auto.
  - destruct (is_test_frame fr) eqn:Ht.
    + exists [], fr, frames. repeat split; auto.
    + destruct (IH _ _ _ Ht W) as (pre & stop & rest & -> & Hpre & Hs & Hstop).
      exists (fr :: pre), stop, rest. repeat split; auto.
Qed.

Lemma walk_raises (frames : list FrameInfo) :
  forall func acc e,
    walk frames func acc = Raise e ->
    e = IndexError_list \/ e = TypeError_None.
Proof.
  induction frames as [|fr frames IH]; intros func acc e W;
    rewrite walk_unfold in W;
    destruct (contains "test_" func); try discriminate.
  - injection W as <-. now left.
  - unfold read_frame in W.
    destruct (code_context fr) as [[|l ls]|].
    + injection W as <-. now left.
    + destruct (contains "site-packages" _); [discriminate|]. eauto.
    + injection W as <-. now right.
Qed.

Lemma walk_exhausted (frames : list FrameInfo) :
  forall func acc,
    contains "test_" func = false ->
    Forall is_helper frames ->
    walk frames func acc = Raise IndexError_list.
Proof.
  induction frames as [|fr frames IH]; intros func acc Hf Hh;
    rewrite walk_unfold, Hf; [reflexivity|].
  inversion Hh as [|? ? (Hs & Ht & Hsp) Hh']; subst.
  rewrite (read_frame_source _ Hs). fold (in_site_packages fr).
  rewrite Hsp. now apply IH.
Qed.

Lemma walk_no_source (pre : list FrameInfo) :
  forall (bad : FrameInfo) (rest : list FrameInfo) func acc,
    contains "test_" func = false ->
    Forall is_helper pre ->
    code_context bad = None ->
    walk (pre ++ bad :: rest)%list func acc = Raise TypeError_None.
Proof.
  induction pre as [|fr pre IH]; intros bad rest func acc Hf Hh Hb;
    cbn [app]; rewrite walk_unfold, Hf.
  - unfold read_frame. now rewrite Hb.
  - inversion Hh as [|? ? (Hs & Ht & Hsp) Hh']; subst.
    rewrite (read_frame_source _ Hs). fold (in_site_packages fr).
    rewrite Hsp. now apply IH.
Qed.

(** X4. A check reported from a helper that a test function calls
    through any number of helpers is logged with the call chain from
    the test function down to the helper, one line a frame; when
    installed code is met before any test function, the chain starts
    at the outermost helper and the installed frame has no line. *)
Theorem log_failure_call_chain (own : FrameInfo) (helpers : list FrameInfo)
    (stop : FrameInfo) (rest : list FrameInfo) (msg : pyval) (st : state) :
  Forall is_helper helpers -> has_source stop = true ->
  (is_test_frame stop = true -> in_site_packages stop = false ->
   log_failure (own :: helpers ++ stop :: rest) msg st =
   (Return tt,
    logged ("FAILURE: " ++ py_str (if truthy msg then msg else VStr "")
              ++ newline
              ++ join newline (render stop :: rev (map render helpers)))
      st))
  /\
  (in_site_packages stop = true ->
   log_failure (own :: helpers ++ stop :: rest) msg st =
   (Return tt,
    logged ("FAILURE: " ++ py_str (if truthy msg then msg else VStr "")
              ++ newline ++ join newline (rev (map render helpers)))
      st)).
Proof.
  intros Hh Hsrc. rewrite log_failure_run. unfold entry_for, format_entry. split.
  - intros T Sp.
    rewrite (@walk_exact helpers stop rest "" [] eq_refl Hh Hsrc (or_introl T)).
    rewrite Sp. cbn [app]. now rewrite rev_app_distr.
  - intros Sp.
    rewrite (@walk_exact helpers stop rest "" [] eq_refl Hh Hsrc (or_intror Sp)).
    rewrite Sp. cbn [app]. now rewrite app_nil_r.
Qed.

End TraceMore.

(** * The pseudo-traceback when [os.path.relpath] may raise *)

Section TraceChecked.
Context `{Host} `{PathErrors}.

Lemma get_full_context_checked_nth (callers : list FrameInfo) (level : nat) :
  WithPathErrors.get_full_context callers level =
  match nth_error
          (module_frame 253 "get_full_context"
             "    (_, filename, line, funcname, contextlist) = inspect.stack()[level][0:5]"
           :: callers) level with
  | None => Raise IndexError_list
  | Some fr => read_frame_checked fr
  end.
Proof.
  unfold WithPathErrors.get_full_context, read_frame_checked, read_frame.
  destruct (nth_error _ level) as [[f l fn ctx]|]; [|reflexivity].
  cbn [filename]. destruct (relpath_error f); [reflexivity|].
  destruct ctx as [[|c cs]|]; reflexivity.
Qed.

Lemma walk_checked_unfold (frames : list FrameInfo) func acc :
  walk_checked frames func acc =
  if contains "test_" func then Return acc
  else
    match frames with
    | [] => Raise IndexError_list
    | fr :: rest =>
        match read_frame_checked fr with
        | Raise e => Raise e
        | Return (file, line, func', context) =>
            if contains "site-packages" file then Return acc
            else walk_checked rest func'
                   (acc ++ [format_line file line func' context])%list
        end
    end.
Proof. destruct frames; reflexivity. Qed.

Lemma log_failure_loop_walk_checked (callers : list FrameInfo) level func acc :
  WithPathErrors.log_failure_loop callers level func acc =
  walk_checked
    (skipn level
       (module_frame 253 "get_full_context"
          "    (_, filename, line, funcname, contextlist) = inspect.stack()[level][0:5]"
        :: callers))
    func acc.
Proof.
  functional induction (WithPathErrors.log_failure_loop callers level func acc);
    rewrite walk_checked_unfold;
    match goal with
    | E : contains "test_" _ = _ |- _ => rewrite E
    end; try reflexivity.
  all: match goal with
       | E : WithPathErrors.get_full_context _ _ = _ |- _ =>
           rewrite get_full_context_checked_nth in E;
           destruct (nth_error _ level) as [fr|] eqn:N;
           [ rewrite (skipn_nth_error_cons _ _ N), E
           | rewrite (skipn_nth_error_nil _ _ N) ]
       end; try congruence.
  all: match goal with
       | E : contains "site-packages" _ = _ |- _ => rewrite E
       end; try reflexivity.
  all: try discriminate.
  assumption.
Qed.

Lemma log_failure_checked_run (own : FrameInfo) (callers : list FrameInfo)
    (msg : pyval) (st : state) :
  WithPathErrors.log_failure (own :: callers) msg st =
  match walk_checked callers "" [] with
  | Return pseudo_trace => (Return tt, logged (format_entry msg pseudo_trace) st)
  | Raise e => (Raise e, st)
  end.
Proof.
  unfold WithPathErrors.log_failure, bind, lift.
  rewrite log_failure_loop_walk_checked. cbn [skipn].
  destruct (walk_checked callers "" []); reflexivity.
Qed.

Lemma read_frame_checked_accepted (fr : FrameInfo) :
  path_accepted fr -> read_frame_checked fr = read_frame fr.
Proof. unfold path_accepted, read_frame_checked. now intros ->. Qed.

Lemma walk_checked_accepted (frames : list FrameInfo) :
  Forall path_accepted frames ->
  forall func acc, walk_checked frames func acc = walk frames func acc.
Proof.
  induction 1 as [|fr frames Hp _ IH]; intros func acc;
    rewrite walk_checked_unfold, walk_unfold; [reflexivity|].
  rewrite (read_frame_checked_accepted Hp).
  destruct (contains "test_" func); [reflexivity|].
  destruct (read_frame fr) as [[[[file line] func'] context]|e]; [|reflexivity].
  destruct (contains "site-packages" file); [reflexivity|]. apply IH.
Qed.

Lemma walk_checked_exact (pre : list FrameInfo) :
  forall (stop : FrameInfo) (rest : list FrameInfo) func acc,
    contains "test_" func = false ->
    Forall is_helper_checked pre ->
    has_source stop = true -> path_accepted stop ->
    is_test_frame stop = true \/ in_site_packages stop = true ->
    walk_checked (pre ++ stop :: rest)%list func acc =
    Return (acc ++ map render pre
                ++ (if in_site_packages stop then [] else [render stop]))%list.
Proof.
  induction pre as [|fr pre IH]; intros stop rest func acc Hf Hpre Hsrc Hp Hstop;
    cbn [app map]; rewrite walk_checked_unfold, Hf.
  - rewrite (read_frame_checked_accepted Hp), (read_frame_source _ Hsrc).
    fold (in_site_packages stop).
    destruct (in_site_packages stop) eqn:Sp.
    + now rewrite app_nil_r.
    + destruct Hstop as [T|F]; [|discriminate].
      rewrite format_line_render, walk_checked_unfold.
      unfold is_test_frame in T. now rewrite T.
  - inversion Hpre as [|? ? ((Hs & Ht & Hsp) & Hq) Hpre']; subst.
    rewrite (read_frame_checked_accepted Hq), (read_frame_source _ Hs).
    fold (in_site_packages fr).
    rewrite Hsp, format_line_render.
    rewrite (IH stop rest (function fr) _ Ht Hpre' Hsrc Hp Hstop).
    now rewrite <- app_assoc.
Qed.

Lemma walk_checked_walkable (frames : list FrameInfo) :
  forall func acc tr,
    contains "test_" func = false ->
    walk_checked frames func acc = Return tr ->
    walkable_checked frames.
Proof.
  induction frames as [|fr frames IH]; intros func acc tr Hf W;
    rewrite walk_checked_unfold, Hf in W; [discriminate|].
  unfold read_frame_checked in W.
  destruct (relpath_error (filename fr)) as [e0|] eqn:Hp; [discriminate|].
  destruct (read_frame fr) as [[[[file line] func'] context]|e] eqn:R;
    [|discriminate].
  destruct (read_frame_Return _ R) as (Hsrc & -> & -> & Hline).
  fold (in_site_packages fr) in W.
  destruct (in_site_packages fr) eqn:Hsp.
  - exists [], fr, frames. repeat split; auto.
  - destruct (is_test_frame fr) eqn:Ht.
    + exists [], fr, frames. repeat split; auto.
    + destruct (IH _ _ _ Ht W)
        as (pre & stop & rest & -> & Hpre & Hs & Hq & Hstop).
      exists (fr :: pre), stop, rest. repeat split; auto.
      constructor; [|assumption]. repeat split; auto.
Qed.

Lemma walk_checked_raises (frames : list FrameInfo) :
  forall func acc e,
    walk_checked frames func acc = Raise e ->
    e = IndexError_list \/ e = TypeError_None \/ is_path_error frames e.
Proof.
  induction frames as [|fr frames IH]; intros func acc e W;
    rewrite walk_checked_unfold in W;
    destruct (contains "test_" func); try discriminate.
  - injection W as <-. now left.
  - unfold read_frame_checked in W.
    destruct (relpath_error (filename fr)) as [e0|] eqn:Hp.
    + injection W as <-. right. right. exists fr.
      split; [now left|assumption].
    + unfold read_frame in W.
      destruct (code_context fr) as [[|l ls]|].
      * injection W as <-. now left.
      * destruct (contains "site-packages" _); [discriminate|].
        destruct (IH _ _ _ W) as [E|[E|(fr' & I & P)]]; auto.
        right. right. exists fr'. split; [now right|assumption].
      * injection W as <-. right. now left.
Qed.

Lemma walk_checked_exhausted (frames : list FrameInfo) :
  forall func acc,
    contains "test_" func = false ->
    Forall is_helper_checked frames ->
    walk_checked frames func acc = Raise IndexError_list.
Proof.
  induction frames as [|fr frames IH]; intros func acc Hf Hh;
    rewrite walk_checked_unfold, Hf; [reflexivity|].
  inversion Hh as [|? ? ((Hs & Ht & Hsp) & Hq) Hh']; subst.
  rewrite (read_frame_checked_accepted Hq), (read_frame_source _ Hs).
  fold (in_site_packages fr).
  rewrite Hsp. now apply IH.
Qed.

(** The walk over helpers and then a frame that [get_full_context]
    cannot read. *)
Lemma walk_checked_unreadable (pre : list FrameInfo) :
  forall (bad : FrameInfo) (rest : list FrameInfo) func acc e,
    contains "test_" func = false ->
    Forall is_helper_checked pre ->
    read_frame_checked bad = Raise e ->
    walk_checked (pre ++ bad :: rest)%list func acc = Raise e.
Proof.
  induction pre as [|fr pre IH]; intros bad rest func acc e Hf Hh Hb;
    cbn [app]; rewrite walk_checked_unfold, Hf.
  - now rewrite Hb.
  - inversion Hh as [|? ? ((Hs & Ht & Hsp) & Hq) Hh']; subst.
    rewrite (read_frame_checked_accepted Hq), (read_frame_source _ Hs).
    fold (in_site_packages fr).
    rewrite Hsp. now apply IH.
Qed.

(** X2. [log_failure] returns exactly when the callers of the
    reporting function are walkable: the name of the function of
    some frame contains [test_], or the relative path of its file
    contains [site-packages]; that frame and all frames before it
    have their source line; and [os.path.relpath] returns for the
    file names of these frames. It then leaves the switch and the
    message as they were and adds one entry to the log. Where
    [os.path.relpath] returns for every file name among the callers,
    [log_failure] with the error of [os.path.relpath] is
    [log_failure] without it. *)
Theorem log_failure_returns_iff (own : FrameInfo) (callers : list FrameInfo)
    (msg : pyval) (st : state) :
  ((exists st', WithPathErrors.log_failure (own :: callers) msg st = (Return tt, st'))
   <-> walkable_checked callers)
  /\ (forall r st',
         WithPathErrors.log_failure (own :: callers) msg st = (Return r, st') ->
         exists entry, st' = logged entry st)
  /\ (Forall path_accepted callers ->
      WithPathErrors.log_failure (own :: callers) msg st
      = log_failure (own :: callers) msg st).
Proof.
  rewrite log_failure_checked_run. split; [split|split].
  - intros (st' & L).
    destruct (walk_checked callers "" []) as [tr|e] eqn:W; [|discriminate].
    exact (walk_checked_walkable callers "" [] eq_refl W).
  - intros (pre & stop & rest & -> & Hpre & Hsrc & Hp & Hstop).
    rewrite (@walk_checked_exact pre stop rest "" [] eq_refl Hpre Hsrc Hp Hstop).
    eexists. reflexivity.
  - intros r st'.
    destruct (walk_checked callers "" []) as [tr|e]; intros E; inversion E.
    eexists. reflexivity.
  - intros Hp. rewrite log_failure_run. unfold entry_for.
    rewrite (walk_checked_accepted Hp).
    destruct (walk callers "" []); reflexivity.
Qed.

(** X3. When [log_failure] raises, the globals are as before the
    call and the exception is the [IndexError] or the [TypeError] of
    [get_full_context], or what [os.path.relpath] raises on the file
    name of one of the callers: [IndexError] when the stack ends
    before a frame stops the walk, [TypeError] when the walk reaches
    a frame without source whose file name [os.path.relpath]
    accepts, be it a test function or installed code, and the
    exception of [os.path.relpath] when the walk reaches a frame
    whose file name it rejects, with or without source. *)
Theorem log_failure_raises (own : FrameInfo) (msg : pyval) (st : state) :
  (forall callers e st',
      WithPathErrors.log_failure (own :: callers) msg st = (Raise e, st') ->
      st' = st
      /\ (e = IndexError_list \/ e = TypeError_None \/ is_path_error callers e))
  /\
  (forall callers,
      Forall is_helper_checked callers ->
      WithPathErrors.log_failure (own :: callers) msg st
      = (Raise IndexError_list, st))
  /\
  (forall pre bad rest,
      Forall is_helper_checked pre ->
      path_accepted bad -> code_context bad = None ->
      WithPathErrors.log_failure (own :: pre ++ bad :: rest) msg st
      = (Raise TypeError_None, st))
  /\
  (forall pre bad rest e,
      Forall is_helper_checked pre ->
      relpath_error (filename bad) = Some e ->
      WithPathErrors.log_failure (own :: pre ++ bad :: rest) msg st
      = (Raise e, st)).
Proof.
  split; [|split; [|split]].
  - intros callers e st'. rewrite log_failure_checked_run.
    destruct (walk_checked callers "" []) as [tr|e'] eqn:W;
      intros E; inversion E; subst.
    split; [reflexivity|]. exact (walk_checked_raises _ _ _ W).
  - intros callers Hh. rewrite log_failure_checked_run.
    now rewrite (@walk_checked_exhausted callers "" [] eq_refl Hh).
  - intros pre bad rest Hh Hp Hb. rewrite log_failure_checked_run.
    rewrite (@walk_checked_unreadable pre bad rest "" [] TypeError_None
               eq_refl Hh); [reflexivity|].
    rewrite (read_frame_checked_accepted Hp). unfold read_frame.
    now rewrite Hb.
  - intros pre bad rest e Hh Hb. rewrite log_failure_checked_run.
    rewrite (@walk_checked_unreadable pre bad rest "" [] e
               eq_refl Hh); [reflexivity|].
    unfold read_frame_checked. now rewrite Hb.
Qed.

End TraceChecked.

Section HostIndependence.



End HostIndependence.

(** * What nesting and sequencing keep *)

Section Invariants.
Context `{Host}.

Lemma log_extends_refl (st : state) : log_extends st st.
Proof. exists []. now rewrite app_nil_r. Qed.

Lemma log_extends_trans (st1 st2 st3 : state) :
  log_extends st1 st2 -> log_extends st2 st3 -> log_extends st1 st3.
Proof.
  intros (a & E1) (b & E2). exists (a ++ b)%list.
  now rewrite E2, E1, app_assoc.
Qed.

Lemma log_extends_logged (entry : string) (st st' : state) :
  log_extends st st' -> log_extends st (logged entry st').
Proof.
  intros L. apply (log_extends_trans L). now exists [entry].
Qed.

Lemma log_extends_msg_cleared (st st' : state) :
  log_extends st st' -> log_extends st (msg_cleared st').
Proof. intros (a & E). now exists a. Qed.

Lemma log_failure_outcome (callers : list FrameInfo) (msg : pyval)
    (st : state) :
  (exists e, log_failure callers msg st = (Raise e, st) /\ is_walk_error e)
  \/ (exists entry, log_failure callers msg st = (Return tt, logged entry st)).
Proof.
  unfold log_failure, bind, lift, append_failure.
  rewrite log_failure_loop_walk.
  destruct (walk _ "" []) as [tr|e] eqn:W.
  - right. eexists. reflexivity.
  - left. exists e. split; [reflexivity|]. exact (walk_raises _ _ _ W).
Qed.

Lemma entry_for_raises (callers : list FrameInfo) (msg : pyval) (e : PyExc) :
  entry_for callers msg = Raise e -> is_walk_error e.
Proof.
  unfold entry_for. destruct (walk callers "" []) as [tr|e'] eqn:W;
    intros E; inversion E; subst. exact (walk_raises _ _ _ W).
Qed.

Lemma with_check_msg_run {A} (callers : list FrameInfo) (msg : pyval)
    (body : M A) (st : state) :
  with_check_msg callers msg body st =
  with_check callers body (mkState (_stop_on_fail st) (_failures st) msg).
Proof. reflexivity. Qed.

Ltac body_at body st :=
  let r := fresh "r" in
  let st1 := fresh "st1" in
  let B := fresh "B" in
  destruct (body st) as [r st1] eqn:B.

(** X5. Between two calls of [clear_failures] the log only grows:
    [log_failure], [set_stop_on_fail], [get_failures] and
    [check(msg)] only add to it, and so do a wrapped function, a
    [with check:] block, a [with raises(...):] block and the call
    form of [raises] whenever the code they run does, and so does
    any sequence of such steps; [clear_failures] is the one
    operation that does not. *)
Theorem log_is_append_only :
  (forall callers msg, appends_only (log_failure callers msg))
  /\ (forall flag, appends_only (set_stop_on_fail flag))
  /\ appends_only get_failures
  /\ (forall msg, appends_only (CheckContextManager.__call__ msg))
  /\ (forall A B (m : M A) (k : A -> M B),
         appends_only m -> (forall a, appends_only (k a)) ->
         appends_only (bind m k))
  /\ (forall Args (func : pyfun Args) callers args,
         (forall callers' args', appends_only (func callers' args')) ->
         appends_only (check_func func callers args))
  /\ (forall A (body : M A) callers msg,
         appends_only body ->
         appends_only (with_check callers body)
         /\ appends_only (with_check_msg callers msg body))
  /\ (forall A (body : M A) callers self,
         appends_only body -> appends_only (with_raises callers self body))
  /\ (forall Args (callable_ : pyfun Args) callers self args msg,
         (forall callers' args', appends_only (callable_ callers' args')) ->
         appends_only (CheckRaisesContext.__call__ callers self callable_ args msg))
  /\ ~ appends_only clear_failures.
Proof.
  assert (WC : forall A (body : M A) callers (st0 st : state),
             log_extends st0 st -> appends_only body ->
             log_extends st0 (snd (with_check callers body st))).
  { intros A body callers st0 st L0 Hb. rewrite with_check_run.
    pose proof (Hb st) as L. body_at body st. cbn [snd] in L.
    pose proof (log_extends_trans L0 L) as L1.
    destruct r as [v|e]; cbn [snd].
    - now apply log_extends_msg_cleared.
    - destruct (issubclass _ _); [destruct (_stop_on_fail st1)|];
        try destruct (entry_for callers _); cbn [snd];
        auto using log_extends_msg_cleared, log_extends_logged. }
  repeat match goal with |- _ /\ _ => split end.
  - intros callers msg st.
    destruct (log_failure_outcome callers msg st) as [(e & -> & _)|(entry & ->)];
      cbn [snd]; [apply log_extends_refl|].
    apply log_extends_logged, log_extends_refl.
  - intros flag st. exists []. cbn. now rewrite app_nil_r.
  - intros st. apply log_extends_refl.
  - intros msg st. exists []. cbn. now rewrite app_nil_r.
  - intros A B m k Hm Hk st. unfold bind.
    pose proof (Hm st) as L. body_at m st. cbn [snd] in L.
    destruct r as [a|e]; [|exact L].
    exact (log_extends_trans L (Hk a st1)).
  - intros Args func callers args Hf st. rewrite check_func_run.
    unfold call_from_wrapper.
    pose proof (Hf (wrapper_frame :: callers) args st) as L.
    unfold wrapper_frame in L.
    destruct (func _ args st) as [[v|e] st1]; cbn [snd] in *; [exact L|].
    destruct (issubclass _ _); [destruct (_stop_on_fail st1)|];
      try destruct (entry_for callers _); cbn [snd];
      auto using log_extends_logged.
  - intros A body callers msg Hb. split; intros st.
    + apply WC; [apply log_extends_refl|assumption].
    + rewrite with_check_msg_run.
      apply WC; [|assumption]. exists []. cbn. now rewrite app_nil_r.
  - intros A body callers self Hb st. rewrite with_raises_run. cbv zeta.
    pose proof (Hb st) as L. body_at body st. cbn [snd] in L.
    destruct r as [v|e];
      (destruct (is_exc_of _ _); [exact L|]);
      (destruct (_stop_on_fail st1); [exact L|]);
      destruct (entry_for callers _); cbn [snd];
      auto using log_extends_logged.
  - intros Args callable_ callers self args msg Hc st.
    rewrite raises_call_run. unfold call_from_raises.
    pose proof (Hc (module_frame 243 "__call__"
                      ("        callable_(" ++ "*args, **kwargs)") :: callers)
                   args st) as L.
    destruct (callable_ _ args st) as [[v|e] st1]; exact L.
  - intros Hc. destruct (Hc (mkState false ["entry"] VNone)) as (added & E).
    cbn in E. discriminate.
Qed.

(** X6. In strict mode nothing is recorded, however the checks are
    nested: a wrapped function, a [with check:] block, a
    [with raises(...):] block and the call form of [raises] leave
    the log as it was and strict mode on whenever the code they run
    does, and so does any sequence of such steps. Only [log_failure]
    itself does not look at the flag: called in strict mode it still
    appends its entry. *)
Theorem strict_mode_records_nothing :
  (forall A (e : PyExc), strict_quiet (raise (A:=A) e))
  /\ (forall A (a : A), strict_quiet (ret a))
  /\ (forall A B (m : M A) (k : A -> M B),
      strict_quiet m -> (forall a, strict_quiet (k a)) ->
      strict_quiet (bind m k))
  /\ (forall Args (func : pyfun Args) callers args,
         (forall callers' args', strict_quiet (func callers' args')) ->
         strict_quiet (check_func func callers args))
  /\ (forall A (body : M A) callers msg,
         strict_quiet body ->
         strict_quiet (with_check callers body)
         /\ strict_quiet (with_check_msg callers msg body))
  /\ (forall A (body : M A) callers self,
         strict_quiet body -> strict_quiet (with_raises callers self body))
  /\ (forall Args (callable_ : pyfun Args) callers self args msg,
         (forall callers' args', strict_quiet (callable_ callers' args')) ->
         strict_quiet (CheckRaisesContext.__call__ callers self callable_ args msg))
  /\ (forall own callers msg entry st,
         _stop_on_fail st = true ->
         entry_for callers msg = Return entry ->
         _failures (snd (log_failure (own :: callers) msg st))
         = (_failures st ++ [entry])%list).
Proof.
  assert (WC : forall A (body : M A) callers (st : state) log,
             _stop_on_fail st = true -> _failures st = log ->
             strict_quiet body ->
             _failures (snd (with_check callers body st)) = log
             /\ _stop_on_fail (snd (with_check callers body st)) = true).
  { intros A body callers st log S <- Hb. rewrite with_check_run.
    destruct (Hb st S) as [L S1]. body_at body st. cbn [snd] in L, S1.
    destruct r as [v|e]; cbn [snd]; [now split|].
    destruct (issubclass _ _); rewrite ?S1; now split. }
  repeat match goal with |- _ /\ _ => split end.
  - intros A e st S. now split.
  - intros A a st S. now split.
  - intros A B m k Hm Hk st S. unfold bind.
    destruct (Hm st S) as [L S1]. body_at m st. cbn [snd] in L, S1.
    destruct r as [a|e]; [|now split].
    destruct (Hk a st1 S1) as [L2 S2]. split; [congruence|exact S2].
  - intros Args func callers args Hf st S. rewrite check_func_run.
    unfold call_from_wrapper.
    destruct (Hf (wrapper_frame :: callers) args st S) as [L S1].
    unfold wrapper_frame in L, S1.
    destruct (func _ args st) as [[v|e] st1]; cbn [snd] in *; [now split|].
    destruct (issubclass _ _); rewrite ?S1; now split.
  - intros A body callers msg Hb. split; intros st S.
    + now apply WC.
    + rewrite with_check_msg_run. now apply WC.
  - intros A body callers self Hb st S. rewrite with_raises_run. cbv zeta.
    destruct (Hb st S) as [L S1]. body_at body st. cbn [snd] in L, S1.
    destruct r as [v|e]; (destruct (is_exc_of _ _); [now split|]);
      rewrite S1; now split.
  - intros Args callable_ callers self args msg Hc st S.
    rewrite raises_call_run. unfold call_from_raises.
    destruct (Hc (module_frame 243 "__call__"
                    ("        callable_(" ++ "*args, **kwargs)") :: callers)
                 args st S) as [L S1].
    destruct (callable_ _ args st) as [[v|e] st1]; now split.
  - intros own callers msg entry st S E. now rewrite log_failure_run, E.
Qed.

End Invariants.

(** * Exceptions that leave the module, and nested wrappers *)

Section Origins.
Context `{Host}.

Lemma walk_error_class (e : PyExc) :
  is_walk_error e -> exc_class e <> DidNotRaiseException.
Proof. intros [-> | ->]; discriminate. Qed.

Lemma entry_for_raised_by_log_failure (callers : list FrameInfo) (msg : pyval)
    (e : PyExc) (st : state) :
  entry_for callers msg = Raise e -> raised_by_log_failure callers e st.
Proof.
  intros E. exists (module_frame 0 "" ""), msg. now rewrite log_failure_run, E.
Qed.

(** X7. The module raises little of its own. With a function to
    wrap or to call and exception classes to expect, an exception
    that leaves a wrapped function, a [with check:] block, a
    [with raises(...):] block or the call form of [raises] is the
    very exception the code inside raised, or else it is what the
    call of [log_failure] raised while a soft failure was being
    logged in non-strict mode; the call form of [raises] lets out
    nothing but what the callable raised. Where [os.path.relpath]
    returns for the file names of the callers, [log_failure] raises
    no [DidNotRaiseException], so one that leaves a
    [with raises(...):] block was raised by the block: the module
    never raises it. *)
Theorem exceptions_come_from_the_code_run (callers : list FrameInfo)
    (st : state) (e : PyExc) (st' : state) :
  (forall Args (func : pyfun Args) args,
      check_func func callers args st = (Raise e, st') ->
      call_from_wrapper func callers args st = (Raise e, st')
      \/ (raised_by_log_failure callers e st' /\ _stop_on_fail st' = false /\
          exists e0, call_from_wrapper func callers args st = (Raise e0, st')
                     /\ is_assertion e0 = true))
  /\
  (forall A (body : M A),
      with_check callers body st = (Raise e, st') ->
      (exists st1, body st = (Raise e, st1) /\ st' = msg_cleared st1)
      \/ (raised_by_log_failure callers e st' /\ _stop_on_fail st' = false /\
          exists e0, body st = (Raise e0, st') /\ is_assertion e0 = true))
  /\
  (forall A (body : M A) self,
      with_raises callers self body st = (Raise e, st') ->
      body st = (Raise e, st')
      \/ (raised_by_log_failure callers e st' /\ _stop_on_fail st' = false /\
          exists r, body st = (r, st')))
  /\
  (forall Args (callable_ : pyfun Args) self args msg,
      CheckRaisesContext.__call__ callers self callable_ args msg st
      = (Raise e, st') ->
      call_from_raises callable_ callers args st = (Raise e, st'))
  /\
  (forall A (body : M A) self,
      with_raises callers self body st = (Raise e, st') ->
      exc_class e = DidNotRaiseException ->
      body st = (Raise e, st')).
Proof.
  assert (WR : forall A (body : M A) self,
             with_raises callers self body st = (Raise e, st') ->
             body st = (Raise e, st')
             \/ (raised_by_log_failure callers e st' /\ is_walk_error e
                 /\ _stop_on_fail st' = false /\
                 exists r, body st = (r, st'))).
  { intros A body self. rewrite with_raises_run. cbv zeta.
    destruct (body st) as [[v|e0] st1] eqn:B.
    - cbn [is_exc_of]. destruct (_stop_on_fail st1) eqn:S; [discriminate|].
      destruct (entry_for callers _) eqn:E; intros X; inversion X; subst.
      right. repeat split;
        eauto using entry_for_raises, entry_for_raised_by_log_failure.
    - destruct (is_exc_of _ _); [discriminate|].
      destruct (_stop_on_fail st1) eqn:S.
      + intros X; inversion X; subst. now left.
      + destruct (entry_for callers _) eqn:E; intros X; inversion X; subst.
        right. repeat split;
          eauto using entry_for_raises, entry_for_raised_by_log_failure. }
  split; [|split; [|split; [|split]]].
  - intros Args func args. rewrite check_func_run.
    destruct (call_from_wrapper func callers args st) as [[v|e0] st1] eqn:B;
      [discriminate|].
    destruct (is_assertion e0) eqn:As; unfold is_assertion in As; rewrite As.
    + destruct (_stop_on_fail st1) eqn:S.
      * intros X; inversion X; subst. now left.
      * destruct (entry_for callers _) eqn:E; intros X; inversion X; subst.
        right. repeat split; eauto using entry_for_raised_by_log_failure.
    + intros X; inversion X; subst. now left.
  - intros A body. rewrite with_check_run.
    destruct (body st) as [[v|e0] st1] eqn:B; [discriminate|].
    destruct (is_assertion e0) eqn:As; unfold is_assertion in As; rewrite As.
    + destruct (_stop_on_fail st1) eqn:S.
      * intros X; inversion X; subst. left. eauto.
      * destruct (entry_for callers _) eqn:E; intros X; inversion X; subst.
        right. repeat split; eauto using entry_for_raised_by_log_failure.
    + intros X; inversion X; subst. left. eauto.
  - intros A body self W.
    destruct (WR A body self W) as [B|(L & _ & S & B)]; [now left|].
    right. repeat split; assumption.
  - intros Args callable_ self args msg. rewrite raises_call_run.
    destruct (call_from_raises callable_ callers args st) as [[v|e0] st1];
      intros X; inversion X; subst. reflexivity.
  - intros A body self W C.
    destruct (WR A body self W) as [B|(_ & We & _)]; [exact B|].
    now destruct (walk_error_class We).
Qed.

(** X8. A wrapped function that is wrapped once more: when the
    function fails its assertion in non-strict mode, the inner
    wrapper logs the failure and returns [False], so the outer
    wrapper returns [True]; the walk for the entry starts at the
    frame of the outer wrapper, and the trace is empty when the
    module is installed code. In strict mode the failure leaves
    both wrappers. *)
Theorem check_func_twice {Args} (func : pyfun Args) (callers : list FrameInfo)
    (args : Args) (e : PyExc) (st st' : state) :
  func (wrapper_frame :: wrapper_frame :: callers) args st = (Raise e, st') ->
  is_assertion e = true ->
  (_stop_on_fail st' = false ->
   forall entry,
     entry_for (wrapper_frame :: callers) (VExc e) = Return entry ->
     check_func (check_func func) callers args st
     = (Return (VBool true), logged entry st'))
  /\
  (_stop_on_fail st' = true ->
   check_func (check_func func) callers args st = (Raise e, st'))
  /\
  (in_site_packages wrapper_frame = true ->
   entry_for (wrapper_frame :: callers) (VExc e)
   = Return ("FAILURE: " ++ exc_str e ++ newline)).
Proof.
  intros B As. unfold is_assertion in As.
  assert (Inner : call_from_wrapper (check_func func) callers args st
                  = check_func func (wrapper_frame :: callers) args st)
    by reflexivity.
  assert (Body : call_from_wrapper func (wrapper_frame :: callers) args st
                 = (Raise e, st')) by exact B.
  split; [|split].
  - intros S entry E.
    rewrite check_func_run, Inner, check_func_run, Body, As, S, E. reflexivity.
  - intros S.
    rewrite check_func_run, Inner, check_func_run, Body, As, S, As, S.
    reflexivity.
  - intros Sp. unfold entry_for. rewrite walk_unfold.
    cbn [contains String.prefix orb].
    unfold in_site_packages in Sp. unfold read_frame.
    cbn [wrapper_frame module_frame code_context filename] in *.
    rewrite Sp. reflexivity.
Qed.

End Origins.

(** * Messages of the scopes *)

Section Messages.
Context `{Host}.

Lemma entry_for_falsy (callers : list FrameInfo) (msg : pyval) :
  truthy msg = false -> entry_for callers msg = entry_for callers (VStr "").
Proof.
  intros T. unfold entry_for, format_entry. now rewrite T.
Qed.

(** X9. The [check] scopes share one message: in
    [with check(outer): (with check(inner): block); assert ...] the
    exit of the inner scope resets the message, so the failure of
    the outer block is logged with the value of its own exception
    and not with [outer]. *)
Theorem nested_check_scopes_share_message {A} (callers_out callers_in : list FrameInfo)
    (outer inner : pyval) (block : M A) (v : A) (e : PyExc)
    (st st1 : state) (entry : string) :
  block (mkState (_stop_on_fail st) (_failures st) inner) = (Return v, st1) ->
  _stop_on_fail st1 = false ->
  is_assertion e = true ->
  entry_for callers_out (VExc e) = Return entry ->
  with_check_msg callers_out outer
    (with_check_msg callers_in inner block ;; raise (A:=unit) e) st
  = (Return tt, msg_cleared (logged entry (msg_cleared st1))).
Proof.
  intros B S As E. unfold is_assertion in As.
  rewrite with_check_msg_run, with_check_run.
  unfold bind at 1. rewrite with_check_msg_run, with_check_run.
  cbn [_stop_on_fail _failures]. rewrite B. unfold raise at 1.
  rewrite As. cbn [msg_cleared _stop_on_fail check_msg]. rewrite S.
  unfold reported. cbn [is_not_None exc_val]. now rewrite E.
Qed.

(** X10. A configured message that is not [None] but counts as
    false (the empty string, [0], [False]) replaces the value of the
    exception and is then dropped by [log_failure]: the entry of a
    [with check(msg):] block and of a [with raises(..., msg=msg):]
    block has an empty message, whatever the exception was. *)
Theorem false_message_hides_the_failure (callers : list FrameInfo)
    (msg : pyval) (e : PyExc) (st1 : state) (entry : string) :
  is_not_None msg = true -> truthy msg = false ->
  _stop_on_fail st1 = false ->
  entry_for callers (VStr "") = Return entry ->
  (forall A (body : M A) st,
      body (mkState (_stop_on_fail st) (_failures st) msg) = (Raise e, st1) ->
      check_msg st1 = msg -> is_assertion e = true ->
      with_check_msg callers msg body st
      = (Return tt, msg_cleared (logged entry st1)))
  /\
  (forall A (body : M A) expected st,
      body st = (Raise e, st1) ->
      is_exc_of (Some e) expected = false ->
      with_raises callers (raises expected msg) body st
      = (Return (raises expected VNone), logged entry st1))
  /\
  (exists trace, entry = "FAILURE: " ++ newline ++ trace).
Proof.
  intros N T S E. split; [|split].
  - intros A body st B M As. unfold is_assertion in As.
    rewrite with_check_msg_run, with_check_run, B, As, S, M.
    unfold reported. rewrite N, (entry_for_falsy _ _ T), E. reflexivity.
  - intros A body expected st B U.
    rewrite with_raises_run, B. cbv beta iota zeta.
    cbn [raises CheckRaisesContext.__init__ CheckRaisesContext.expected_excs
         CheckRaisesContext.msg].
    rewrite U, S. unfold reported. rewrite N, (entry_for_falsy _ _ T), E.
    reflexivity.
  - unfold entry_for in E. destruct (walk callers "" []); [|discriminate].
    injection E as <-. eexists. reflexivity.
Qed.

(** X11. The message of a [raises] scope is used once: the scope
    that an exit leaves behind has the same expected classes and no
    message, so when it is entered again an unmet expectation is
    logged with the value of the exception. *)
Theorem raises_message_is_used_once {A} (callers : list FrameInfo)
    (self self' : CheckRaisesContext.t) (body : M A) (st st' : state) :
  with_raises callers self body st = (Return self', st') ->
  self' = CheckRaisesContext.set_msg self VNone
  /\
  (forall B (body2 : M B) callers2 e st2 entry,
      body2 st' = (Raise e, st2) ->
      is_exc_of (Some e) (CheckRaisesContext.expected_excs self) = false ->
      _stop_on_fail st2 = false ->
      entry_for callers2 (VExc e) = Return entry ->
      with_raises callers2 self' body2 st' = (Return self', logged entry st2)).
Proof.
  intros W.
  assert (S : self' = CheckRaisesContext.set_msg self VNone).
  { revert W. rewrite with_raises_run. cbv zeta.
    destruct (body st) as [[v|e] st1];
      (destruct (is_exc_of _ _); [intros X; now inversion X|]);
      (destruct (_stop_on_fail st1);
       [intros X; now inversion X|]);
      destruct (entry_for callers _); intros X; now inversion X. }
  split; [exact S|].
  intros B body2 callers2 e st2 entry B2 U S2 E. subst self'.
  rewrite with_raises_run, B2. cbv beta iota zeta.
  cbn [CheckRaisesContext.set_msg CheckRaisesContext.expected_excs
       CheckRaisesContext.msg].
  rewrite U, S2. unfold reported. cbn [is_not_None exc_val]. now rewrite E.
Qed.

End Messages.

(** * Which exceptions a [raises] scope accepts *)

Section Matching.

Lemma pyclass_eqb_eq (c d : pyclass) : pyclass_eqb c d = true <-> c = d.
Proof.
  unfold pyclass_eqb. destruct (pyclass_eq_dec c d); split; congruence.
Qed.

Lemma issubclass_In (c d : pyclass) :
  issubclass c d = true <-> In d (mro c).
Proof.
  unfold issubclass. rewrite existsb_exists. split.
  - intros (x & I & E). apply pyclass_eqb_eq in E. now subst.
  - intros I. exists d. split; [exact I|]. now apply pyclass_eqb_eq.
Qed.

Lemma issubclass_refl (c : pyclass) : issubclass c c = true.
Proof. apply issubclass_In. destruct c; cbn; auto. Qed.

Lemma issubclass_BaseException (c : pyclass) :
  issubclass c BaseException = true.
Proof.
  apply issubclass_In.
  induction c as [| | | | | | | | | |name base IH]; cbn; auto 6.
Qed.

Lemma mro_suffix (c d : pyclass) :
  In d (mro c) -> exists pre, mro c = (pre ++ mro d)%list.
Proof.
  induction c as [| | | | | | | | | |name base IH]; intros I;
    try (cbn in I;
         repeat match goal with
                | J : _ \/ _ |- _ => destruct J as [J|J]
                end;
         try contradiction; subst d;
         first [ now exists []
               | now eexists [_]
               | now eexists [_; _]
               | now eexists [_; _; _] ]).
  cbn [mro] in I. destruct I as [<- | I].
  - now exists [].
  - destruct (IH I) as (pre & E). exists (UserClass name base :: pre).
    cbn [mro app]. now rewrite E.
Qed.

Lemma issubclass_trans (c d e : pyclass) :
  issubclass c d = true -> issubclass d e = true -> issubclass c e = true.
Proof.
  rewrite !issubclass_In. intros Icd Ide.
  destruct (mro_suffix c d Icd) as (pre & ->).
  apply in_or_app. now right.
Qed.

Lemma is_exc_of_In (e : PyExc) (c : pyclass) (expected : list pyclass) :
  In c expected -> issubclass (exc_class e) c = true ->
  is_exc_of (Some e) expected = true.
Proof.
  intros I S. cbn. unfold issubclass_tuple. apply existsb_exists. eauto.
Qed.

End Matching.

Section RaisesMore.
Context `{Host}.

(** X12. A [raises] scope accepts an exception whose class is a
    subclass of any of the expected classes, through any number of
    intermediate classes, and then suppresses it with nothing logged
    in strict and in non-strict mode alike. So [raises(BaseException)]
    lets no exception out, and [raises(Exception)] silently swallows
    a failed [assert] of its block. *)
Theorem raises_accepts_subclasses {A} (callers : list FrameInfo)
    (self : CheckRaisesContext.t) (body : M A) (e : PyExc) (st st' : state) :
  body st = (Raise e, st') ->
  (forall c d,
      In c (CheckRaisesContext.expected_excs self) ->
      issubclass d c = true -> issubclass (exc_class e) d = true ->
      with_raises callers self body st
      = (Return (CheckRaisesContext.set_msg self VNone), st'))
  /\
  (In BaseException (CheckRaisesContext.expected_excs self) ->
   with_raises callers self body st
   = (Return (CheckRaisesContext.set_msg self VNone), st'))
  /\
  (In Exception (CheckRaisesContext.expected_excs self) ->
   is_assertion e = true ->
   with_raises callers self body st
   = (Return (CheckRaisesContext.set_msg self VNone), st')).
Proof.
  intros B.
  assert (Match : forall c,
             In c (CheckRaisesContext.expected_excs self) ->
             issubclass (exc_class e) c = true ->
             with_raises callers self body st
             = (Return (CheckRaisesContext.set_msg self VNone), st')).
  { intros c I S. rewrite with_raises_run, B. cbv beta iota zeta.
    now rewrite (is_exc_of_In e c _ I S). }
  split; [|split].
  - intros c d I Sdc Sed. apply (Match c I).
    exact (issubclass_trans _ _ _ Sed Sdc).
  - intros I. apply (Match BaseException I), issubclass_BaseException.
  - intros I As. apply (Match Exception I).
    exact (issubclass_trans _ AssertionError Exception As eq_refl).
Qed.

(** X13. The call form of a [raises] scope never reports: it leaves
    the globals as the callable left them, so a callable that
    returns without raising adds no entry, where the same callable
    in a [with] block of the scope adds one in non-strict mode; and
    the message given to the constructor is replaced by the one of
    the call. *)
Theorem raises_call_never_reports {Args} (callers : list FrameInfo)
    (self : CheckRaisesContext.t) (callable_ : pyfun Args) (args : Args)
    (msg : pyval) (st : state) :
  snd (CheckRaisesContext.__call__ callers self callable_ args msg st)
  = snd (call_from_raises callable_ callers args st)
  /\
  (forall v st',
      call_from_raises callable_ callers args st = (Return v, st') ->
      CheckRaisesContext.__call__ callers self callable_ args msg st
      = (Return (CheckRaisesContext.set_msg self msg), st')
      /\
      (_stop_on_fail st' = false ->
       forall entry,
         entry_for callers (reported (CheckRaisesContext.msg self) None)
         = Return entry ->
         with_raises callers self (call_from_raises callable_ callers args) st
         = (Return (CheckRaisesContext.set_msg self VNone), logged entry st'))).
Proof.
  split.
  - rewrite raises_call_run.
    destruct (call_from_raises callable_ callers args st) as [[v|e] st'];
      reflexivity.
  - intros v st' C. split.
    + now rewrite raises_call_run, C.
    + intros S entry E. rewrite with_raises_run, C. cbv beta iota zeta.
      cbn [is_exc_of]. now rewrite S, E.
Qed.

End RaisesMore.

(** * The predicates *)

Section Predicates.
Context `{Host}.

(** A wrapped [assert cond, msg], in both modes. *)
Lemma asserting_run {Args} (cond : Args -> bool) (message : Args -> pyval)
    (callers : list FrameInfo) (args : Args) (st : state) :
  check_func (fun _ args => asserting (cond args) (message args)) callers args st
  = if cond args then (Return (VBool true), st)
    else if _stop_on_fail st then
      (Raise (mkExc AssertionError (py_str (message args))), st)
    else
      match failure_entry callers (message args) with
      | Return entry => (Return (VBool false), logged entry st)
      | Raise e => (Raise e, st)
      end.
Proof.
  rewrite check_func_run. unfold call_from_wrapper, asserting, assert_.
  destruct (cond args); [reflexivity|].
  unfold bind, raise. cbn [exc_class issubclass mro existsb pyclass_eqb].
  destruct (pyclass_eq_dec AssertionError AssertionError); [|congruence].
  cbn [orb]. reflexivity.
Qed.

Lemma asserting_soft {Args} (cond : Args -> bool) (message : Args -> pyval)
    (callers : list FrameInfo) (args : Args) (st : state) (entry : string) :
  _stop_on_fail st = false ->
  failure_entry callers (message args) = Return entry ->
  checks_as
    (check_func (fun _ args => asserting (cond args) (message args))
       callers args st)
    (cond args) entry st.
Proof.
  intros S E. unfold checks_as. rewrite asserting_run, S, E. reflexivity.
Qed.

Lemma asserting_strict {Args} (cond : Args -> bool) (message : Args -> pyval)
    (callers : list FrameInfo) (args : Args) (st : state) :
  _stop_on_fail st = true ->
  checks_strictly
    (check_func (fun _ args => asserting (cond args) (message args))
       callers args st)
    (cond args) (message args) st.
Proof.
  intros S. unfold checks_strictly. rewrite asserting_run, S. reflexivity.
Qed.

(** A wrapped ordering followed by [assert], in both modes. *)
Lemma ordering_run (op : string) (holds : comparison -> bool)
    (callers : list FrameInfo) (a b : scalar) (msg : pyval) (st : state) :
  check_func
    (fun _ '(a, b, msg) => cond <- lift (py_order op holds a b) ;; asserting cond msg)
    callers (a, b, msg) st
  = match py_compare a b with
    | None => (Raise (ordering_error op a b), st)
    | Some c =>
        check_func (fun _ (_ : unit) => asserting (holds c) msg) callers tt st
    end.
Proof.
  rewrite !check_func_run. unfold call_from_wrapper, py_order.
  destruct (py_compare a b) as [c|].
  - rewrite check_func_run. reflexivity.
  - reflexivity.
Qed.


End Predicates.

Section Ordering.
Context `{Host}.

Lemma string_compare_refl (s : string) : String.compare s s = Eq.
Proof.
  induction s as [|c s IH]; [reflexivity|].
  cbn. unfold Ascii.compare. now rewrite N.compare_refl.
Qed.

Lemma string_compare_Eq (s t : string) :
  is_Eq (String.compare s t) = (s =? t)%string.
Proof.
  destruct (String.eqb_spec s t) as [->|N].
  - now rewrite string_compare_refl.
  - destruct (String.compare s t) eqn:C; try reflexivity.
    now apply String.compare_eq_iff in C.
Qed.

Lemma py_eq_compare (a b : scalar) (c : comparison) :
  py_compare a b = Some c -> py_eq a b = is_Eq c.
Proof.
  unfold py_compare, py_eq.
  destruct (number_of a) as [x|], (number_of b) as [y|].
  - intros E; injection E as <-.
    destruct (Z.compare_spec x y) as [->|L|L]; cbn.
    + apply Z.eqb_refl.
    + apply Z.eqb_neq. lia.
    + apply Z.eqb_neq. lia.
  - destruct a, b; try discriminate;
      intros E; injection E as <-; symmetry; apply string_compare_Eq.
  - destruct a, b; try discriminate;
      intros E; injection E as <-; symmetry; apply string_compare_Eq.
  - destruct a, b; try discriminate;
      intros E; injection E as <-; symmetry; apply string_compare_Eq.
Qed.

Lemma py_compare_swap (a b : scalar) (c : comparison) :
  py_compare a b = Some c -> py_compare b a = Some (CompOpp c).
Proof.
  destruct a as [|[|]|x|s], b as [|[|]|y|t];
    unfold py_compare; cbn [number_of];
    intros E; try discriminate; injection E as <-;
    try (now rewrite Z.compare_antisym).
  f_equal. apply String.compare_antisym.
Qed.

Lemma ordering_soft (op : string) (holds : comparison -> bool)
    (callers : list FrameInfo) (a b : scalar) (msg : pyval) (st : state)
    (c : comparison) (entry : string) :
  py_compare a b = Some c ->
  _stop_on_fail st = false ->
  failure_entry callers msg = Return entry ->
  checks_as
    (check_func
       (fun _ '(a, b, msg) =>
          cond <- lift (py_order op holds a b) ;; asserting cond msg)
       callers (a, b, msg) st)
    (holds c) entry st.
Proof.
  intros C S E. rewrite ordering_run, C.
  exact (asserting_soft (fun _ : unit => holds c) (fun _ => msg)
           callers tt st S E).
Qed.

(** X15. On two integers (a boolean counts as the integer 0 or 1)
    or two strings the five comparisons answer from one and the same
    ordering: of [less], [equal] and [greater] exactly one returns
    [True], [less_equal] fails exactly when [greater] holds and
    [greater_equal] exactly when [less] holds, and swapping the
    arguments swaps [less] and [greater]. Floats are not among the
    values of [scalar]: the statement says nothing of them, and for
    a NaN it would not hold. *)
Theorem comparisons_share_one_ordering (callers : list FrameInfo)
    (a b : scalar) (msg : pyval) (st : state) (c : comparison)
    (entry : string) :
  py_compare a b = Some c ->
  _stop_on_fail st = false ->
  failure_entry callers msg = Return entry ->
  checks_as (less callers (a, b, msg) st) (is_Lt c) entry st
  /\ checks_as (equal callers (a, b, msg) st) (is_Eq c) entry st
  /\ checks_as (greater callers (a, b, msg) st) (is_Gt c) entry st
  /\ checks_as (less_equal callers (a, b, msg) st) (negb (is_Gt c)) entry st
  /\ checks_as (greater_equal callers (a, b, msg) st) (negb (is_Lt c)) entry st
  /\ checks_as (less callers (b, a, msg) st) (is_Gt c) entry st
  /\ checks_as (greater callers (b, a, msg) st) (is_Lt c) entry st.
Proof.
  intros C S E. pose proof (py_compare_swap a b C) as C'.
  repeat match goal with |- _ /\ _ => split end.
  - exact (ordering_soft "<" is_Lt callers a b msg st C S E).
  - rewrite <- (py_eq_compare a b C).
    exact (asserting_soft (fun '(a, b, _) => py_eq a b)
             (fun '(_, _, msg) => msg) callers (a, b, msg) st S E).
  - exact (ordering_soft ">" is_Gt callers a b msg st C S E).
  - exact (ordering_soft "<=" (fun c => negb (is_Gt c)) callers a b msg st C S E).
  - exact (ordering_soft ">=" (fun c => negb (is_Lt c)) callers a b msg st C S E).
  - replace (is_Gt c) with (is_Lt (CompOpp c)) by now destruct c.
    exact (ordering_soft "<" is_Lt callers b a msg st C' S E).
  - replace (is_Lt c) with (is_Gt (CompOpp c)) by now destruct c.
    exact (ordering_soft ">" is_Gt callers b a msg st C' S E).
Qed.

(** X16. On values that Python does not order ([None] with anything,
    a string with a number) the four ordering predicates raise the
    [TypeError] of the comparison in strict and in non-strict mode,
    with nothing logged; an enclosing [with check:] block does not
    suppress it either. *)
Theorem unordered_values_are_not_soft (callers : list FrameInfo)
    (a b : scalar) (msg : pyval) (st : state) :
  py_compare a b = None ->
  less callers (a, b, msg) st = (Raise (ordering_error "<" a b), st)
  /\ less_equal callers (a, b, msg) st = (Raise (ordering_error "<=" a b), st)
  /\ greater callers (a, b, msg) st = (Raise (ordering_error ">" a b), st)
  /\ greater_equal callers (a, b, msg) st = (Raise (ordering_error ">=" a b), st)
  /\ (forall block_callers,
         with_check block_callers (less callers (a, b, msg)) st
         = (Raise (ordering_error "<" a b), msg_cleared st)).
Proof.
  intros C.
  assert (L : less callers (a, b, msg) st = (Raise (ordering_error "<" a b), st)).
  { unfold less. now rewrite ordering_run, C. }
  repeat match goal with |- _ /\ _ => split end.
  - exact L.
  - unfold less_equal. now rewrite ordering_run, C.
  - unfold greater. now rewrite ordering_run, C.
  - unfold greater_equal. now rewrite ordering_run, C.
  - intros block_callers. rewrite with_check_run, L. reflexivity.
Qed.

End Ordering.

(** * The list that [get_failures] hands out *)

Section Aliasing.
Context `{Host}.

Lemma update_length n f l : length (Heap.update n f l) = length l.
Proof.
  revert n; induction l as [|x l IH]; intros [|n]; cbn; auto.
Qed.

Lemma update_nth_same n f l :
  (n < length l)%nat -> nth n (Heap.update n f l) [] = f (nth n l []).
Proof.
  revert n; induction l as [|x l IH]; intros [|n] L; cbn in *; try lia; auto.
  apply IH. lia.
Qed.

Lemma update_nth_other n m f l :
  m <> n -> nth m (Heap.update n f l) [] = nth m l [].
Proof.
  revert n m; induction l as [|x l IH]; intros [|n] [|m] N; cbn;
    try reflexivity; try congruence.
  apply IH. congruence.
Qed.

Lemma heap_log_failure_outcome (callers : list FrameInfo) (msg : pyval)
    (s : Heap.store) :
  (exists e, Heap.log_failure callers msg s = (Raise e, s))
  \/ (exists entry, Heap.log_failure callers msg s
                    = (Return tt, Heap.append entry s)).
Proof.
  unfold Heap.log_failure.
  destruct (log_failure_loop _ _ _ _); [right|left]; eexists; reflexivity.
Qed.

Lemma append_well_formed entry s :
  Heap.well_formed s -> Heap.well_formed (Heap.append entry s).
Proof.
  unfold Heap.well_formed, Heap.append. cbn. now rewrite update_length.
Qed.

Lemma append_contents_bound entry s :
  Heap.well_formed s ->
  Heap.contents (Heap.append entry s) (Heap.bound s)
  = (Heap.contents s (Heap.bound s) ++ [entry])%list.
Proof.
  intros W. unfold Heap.contents, Heap.append. cbn.
  now rewrite update_nth_same.
Qed.

Lemma append_contents_other entry s r :
  r <> Heap.bound s ->
  Heap.contents (Heap.append entry s) r = Heap.contents s r.
Proof.
  intros N. unfold Heap.contents, Heap.append. cbn.
  now rewrite update_nth_other.
Qed.

(** X17. [get_failures] hands out the list itself and not a copy:
    a list obtained before a later failure is logged shows that
    failure too, as its last entry. *)
Theorem get_failures_is_live (callers : list FrameInfo) (msg : pyval)
    (s s' : Heap.store) :
  Heap.well_formed s ->
  Heap.log_failure callers msg s = (Return tt, s') ->
  exists entry,
    Heap.contents s' (Heap.get_failures s)
    = (Heap.contents s (Heap.get_failures s) ++ [entry])%list
    /\ Heap.get_failures s' = Heap.get_failures s.
Proof.
  intros W L.
  destruct (heap_log_failure_outcome callers msg s) as [(e & E)|(entry & E)];
    rewrite E in L; inversion L; subst.
  exists entry. split; [|reflexivity].
  now apply append_contents_bound.
Qed.

(** X18. [clear_failures] binds the name to a new list and leaves
    the old list alone: a list obtained from [get_failures] before
    the reset keeps its entries, is no longer the one that
    [get_failures] hands out, and is not changed by failures logged
    after the reset, while the new list starts empty. *)
Theorem clear_failures_rebinds (s : Heap.store) :
  Heap.well_formed s ->
  let old := Heap.get_failures s in
  let s1 := Heap.clear_failures s in
  Heap.contents s1 old = Heap.contents s old
  /\ Heap.get_failures s1 <> old
  /\ Heap.contents s1 (Heap.get_failures s1) = []
  /\ Heap.well_formed s1
  /\ (forall callers msg s2,
         Heap.log_failure callers msg s1 = (Return tt, s2) ->
         Heap.contents s2 old = Heap.contents s old).
Proof.
  intros W old s1. unfold Heap.well_formed, Heap.get_failures in *.
  assert (C1 : Heap.contents s1 old = Heap.contents s old).
  { unfold Heap.contents, s1, old, Heap.clear_failures. cbn.
    now rewrite app_nth1. }
  assert (N : Heap.bound s1 <> old).
  { unfold s1, old, Heap.clear_failures. cbn. lia. }
  repeat match goal with |- _ /\ _ => split end.
  - exact C1.
  - exact N.
  - unfold Heap.contents, s1, Heap.clear_failures. cbn.
    rewrite app_nth2 by lia. now rewrite Nat.sub_diag.
  - unfold s1, Heap.clear_failures. cbn. rewrite length_app. cbn. lia.
  - intros callers msg s2 L.
    destruct (heap_log_failure_outcome callers msg s1) as [(e & E)|(entry & E)];
      rewrite E in L; inversion L; subst.
    rewrite append_contents_other; [exact C1|]. congruence.
Qed.

(** X19. The flat log of the globals is what the bound list object
    holds: if a store and the globals show the same log, they still
    do after [clear_failures] and after [log_failure], which also
    ends the same way on both, and [get_failures] on the globals
    returns what the object handed out holds. *)
Theorem store_agrees_with_globals (s : Heap.store) (st : state) :
  Heap.well_formed s -> Heap.agrees s st ->
  Heap.agrees (Heap.clear_failures s) (snd (clear_failures st))
  /\ Heap.well_formed (Heap.clear_failures s)
  /\ (forall callers msg,
         fst (Heap.log_failure callers msg s) = fst (log_failure callers msg st)
         /\ Heap.agrees (snd (Heap.log_failure callers msg s))
              (snd (log_failure callers msg st))
         /\ Heap.well_formed (snd (Heap.log_failure callers msg s)))
  /\ fst (get_failures st) = Return (Heap.contents s (Heap.get_failures s)).
Proof.
  unfold Heap.agrees. intros W A.
  split; [|split; [|split]].
  - unfold Heap.contents, Heap.clear_failures. cbn.
    rewrite app_nth2 by lia. now rewrite Nat.sub_diag.
  - unfold Heap.well_formed, Heap.clear_failures. cbn.
    rewrite length_app. cbn. lia.
  - intros callers msg.
    unfold Heap.log_failure, log_failure, bind, lift, append_failure.
    destruct (log_failure_loop _ _ _ _) as [tr|e]; cbn [fst snd _failures].
    + split; [reflexivity|]. split.
      * change (Heap.bound (Heap.append ?e s)) with (Heap.bound s).
        rewrite append_contents_bound by exact W. now rewrite A.
      * now apply append_well_formed.
    + split; [reflexivity|]. now split.
  - unfold get_failures, Heap.get_failures. cbn. now rewrite A.
Qed.

End Aliasing.

(** * The markers are substrings *)

Section Markers.
Context `{Host}.

Lemma prefix_app (s t : string) : String.prefix s (s ++ t) = true.
Proof.
  induction s as [|c s IH]; cbn; [now destruct t|].
  destruct (ascii_dec c c); [exact IH|congruence].
Qed.

Lemma prefix_split (s t : string) :
  String.prefix s t = true -> exists post, t = s ++ post.
Proof.
  revert t; induction s as [|c s IH]; intros t P.
  - now exists t.
  - destruct t as [|d t]; cbn in P; [discriminate|].
    destruct (ascii_dec c d) as [->|]; [|discriminate].
    destruct (IH t P) as (post & ->). now exists post.
Qed.

Lemma contains_spec (needle hay : string) :
  contains needle hay = true <->
  exists pre post, hay = pre ++ needle ++ post.
Proof.
  split.
  - induction hay as [|c hay IH]; cbn [contains]; intros C;
      apply orb_true_iff in C; destruct C as [P|C]; try discriminate.
    + destruct (prefix_split _ _ P) as (post & E). now exists "", post.
    + destruct (prefix_split _ _ P) as (post & E). now exists "", post.
    + destruct (IH C) as (pre & post & ->). now exists (String c pre), post.
  - intros (pre & post & ->). induction pre as [|c pre IH].
    + cbn [append]. destruct (needle ++ post) eqn:E; cbn [contains];
        rewrite <- E, prefix_app; reflexivity.
    + cbn [append contains]. rewrite IH. apply orb_true_r.
Qed.

(** X20. The two markers are substring tests: a frame stops the walk
    as a test function as soon as [test_] occurs anywhere in the name
    of its function, and counts as installed code as soon as
    [site-packages] occurs anywhere in its relative path. So a check
    in a function of user code whose name merely contains [test_] is
    logged with the line of that function alone, whatever called
    it. *)
Theorem markers_are_substrings (fr : FrameInfo) :
  (is_test_frame fr = true <->
   exists pre post, function fr = pre ++ "test_" ++ post)
  /\
  (in_site_packages fr = true <->
   exists pre post, relpath (filename fr) = pre ++ "site-packages" ++ post)
  /\
  (forall own rest msg st pre post,
      function fr = pre ++ "test_" ++ post ->
      in_site_packages fr = false -> has_source fr = true ->
      log_failure (own :: fr :: rest) msg st
      = (Return tt,
         logged ("FAILURE: " ++ py_str (if truthy msg then msg else VStr "")
                   ++ newline ++ render fr)
           st)).
Proof.
  split; [|split].
  - apply contains_spec.
  - apply contains_spec.
  - intros own rest msg st pre post F Sp Src.
    assert (T : is_test_frame fr = true).
    { apply contains_spec. eauto. }
    rewrite log_failure_run. unfold entry_for.
    erewrite walk_test_frame by eassumption. reflexivity.
Qed.

End Markers.

(** * The further properties on a concrete run *)


Lemma log_failure_returns_iff_witness :
  walkable_checked (H:=repo_host) (H0:=drive_c)
    [helper_frame; test_frame; other_drive_frame]
  /\ (exists st',
       @WithPathErrors.log_failure repo_host drive_c
         [wrapper_frame (H:=repo_host); pytest_frame] VNone initial_state
       = (Return tt, st'))
  /\ (exists entry,
       logged ("FAILURE: custom" ++ newline ++ test_line ++ newline ++ helper_line)
         initial_state
       = logged entry initial_state)
  /\ @WithPathErrors.log_failure repo_host drive_c
       [wrapper_frame (H:=repo_host); helper_frame; script_frame] VNone initial_state
     = log_failure (H:=repo_host)
         [wrapper_frame (H:=repo_host); helper_frame; script_frame] VNone
         initial_state.
Proof.
  split; [|split; [|split]].
  - apply (proj1 (proj1 (@log_failure_returns_iff repo_host drive_c
                           (wrapper_frame (H:=repo_host))
                           [helper_frame; test_frame; other_drive_frame]
                           (VStr "custom") initial_state))).
    exists (logged ("FAILURE: custom" ++ newline ++ test_line ++ newline
                      ++ helper_line) initial_state).
    reflexivity.
  - apply (proj2 (proj1 (@log_failure_returns_iff repo_host drive_c
                           (wrapper_frame (H:=repo_host))
                           [pytest_frame] VNone initial_state))).
    exists [], pytest_frame, []. split; [reflexivity|].
    split; [constructor|]. split; [reflexivity|]. split; [reflexivity|].
    right. reflexivity.
  - apply (proj1 (proj2 (@log_failure_returns_iff repo_host drive_c
                           (wrapper_frame (H:=repo_host))
                           [helper_frame; test_frame; other_drive_frame]
                           (VStr "custom") initial_state)) tt).
    reflexivity.
  - apply (proj2 (proj2 (@log_failure_returns_iff repo_host drive_c
                           (wrapper_frame (H:=repo_host))
                           [helper_frame; script_frame] VNone initial_state))).
    repeat constructor.
Defined.

Lemma log_failure_raises_witness :
  let own := wrapper_frame (H:=repo_host) in
  let rejected := mkExc ValueError "path is on mount 'D:', start on mount 'C:'" in
  (initial_state = initial_state
   /\ (rejected = IndexError_list \/ rejected = TypeError_None
       \/ is_path_error (H:=drive_c) [helper_frame; other_drive_frame; test_frame]
            rejected))
  /\ @WithPathErrors.log_failure repo_host drive_c
       [own; helper_frame; script_frame] VNone initial_state
     = (Raise IndexError_list, initial_state)
  /\ @WithPathErrors.log_failure repo_host drive_c
       [own; helper_frame; frozen_frame; test_frame] VNone initial_state
     = (Raise TypeError_None, initial_state)
  /\ @WithPathErrors.log_failure repo_host drive_c
       [own; helper_frame; other_drive_frame; test_frame] VNone initial_state
     = (Raise rejected, initial_state).
Proof.
  intros own rejected.
  destruct (@log_failure_raises repo_host drive_c own VNone initial_state)
    as (A & B & C & D).
  split; [|split; [|split]].
  - apply (A [helper_frame; other_drive_frame; test_frame]). reflexivity.
  - apply (B [helper_frame; script_frame]).
    repeat constructor.
  - apply (C [helper_frame] frozen_frame [test_frame]).
    + repeat constructor.
    + reflexivity.
    + reflexivity.
  - apply (D [helper_frame] other_drive_frame [test_frame]).
    + repeat constructor.
    + reflexivity.
Defined.

Lemma log_failure_call_chain_witness :
  let own := wrapper_frame (H:=repo_host) in
  log_failure (H:=repo_host) [own; helper_frame; test_frame; pytest_frame]
    (VStr "custom") initial_state
  = (Return tt,
     logged ("FAILURE: custom" ++ newline ++ test_line ++ newline ++ helper_line)
       initial_state)
  /\
  log_failure (H:=repo_host) [own; helper_frame; pytest_frame]
    (VStr "custom") initial_state
  = (Return tt, logged ("FAILURE: custom" ++ newline ++ helper_line) initial_state).
Proof.
  intros own. split.
  - apply (proj1 (@log_failure_call_chain repo_host own [helper_frame] test_frame
                    [pytest_frame] (VStr "custom") initial_state
                    ltac:(repeat constructor) eq_refl));
      reflexivity.
  - apply (proj2 (@log_failure_call_chain repo_host own [helper_frame] pytest_frame
                    [] (VStr "custom") initial_state
                    ltac:(repeat constructor) eq_refl));
      reflexivity.
Defined.

Lemma log_is_append_only_witness :
  appends_only
    (with_check (H:=repo_host) [test_frame]
       (log_failure (H:=repo_host) [helper_frame; test_frame] (VStr "direct") ;;
        set_stop_on_fail true)).
Proof.
  destruct (@log_is_append_only repo_host)
    as (L & S & _ & _ & B & _ & W & _).
  apply (W _ _ [test_frame] VNone).
  apply B; [apply L|intros _; apply S].
Defined.

Lemma strict_mode_records_nothing_witness :
  strict_quiet
    (with_check (H:=repo_host) [test_frame]
       (check_func (H:=repo_host) (raising (mkExc AssertionError "no")) [test_frame] tt))
  /\
  _failures
    (snd (log_failure (H:=repo_host) [wrapper_frame (H:=repo_host); test_frame]
            (VStr "direct") strict_state))
  = ["FAILURE: direct" ++ newline ++ test_line].
Proof.
  destruct (@strict_mode_records_nothing repo_host)
    as (R & _ & _ & F & W & _ & _ & D).
  split.
  - apply (W _ _ [test_frame] VNone).
    apply F. intros callers' args'. apply R.
  - apply (D (wrapper_frame (H:=repo_host)) [test_frame] (VStr "direct")
             ("FAILURE: direct" ++ newline ++ test_line) strict_state);
      reflexivity.
Defined.

Lemma exceptions_come_from_the_code_run_witness :
  (call_from_wrapper (H:=repo_host) equal_body [script_frame] (2, 3, VNone)%Z
     initial_state = (Raise IndexError_list, initial_state)
   \/ (raised_by_log_failure (H:=repo_host) [script_frame] IndexError_list
         initial_state
       /\ _stop_on_fail initial_state = false /\
       exists e0,
         call_from_wrapper (H:=repo_host) equal_body [script_frame] (2, 3, VNone)%Z
           initial_state = (Raise e0, initial_state)
         /\ is_assertion e0 = true))
  /\
  raise (A:=unit) (mkExc DidNotRaiseException "never") strict_state
  = (Raise (mkExc DidNotRaiseException "never"), strict_state).
Proof.
  split.
  - apply (proj1 (@exceptions_come_from_the_code_run repo_host [script_frame]
                    initial_state IndexError_list initial_state)).
    reflexivity.
  - apply (proj2 (proj2 (proj2 (proj2
             (@exceptions_come_from_the_code_run repo_host [test_frame]
                strict_state (mkExc DidNotRaiseException "never") strict_state))))
             unit (raise (mkExc DidNotRaiseException "never"))
             (raises [ValueError] VNone));
      reflexivity.
Defined.

Lemma check_func_twice_witness :
  check_func (H:=repo_host) (check_func (H:=repo_host) equal_body) [test_frame]
    (2, 3, VStr "custom")%Z initial_state
  = (Return (VBool true),
     logged ("FAILURE: custom" ++ newline ++ test_line ++ newline ++ wrapper_line)
       initial_state)
  /\
  check_func (H:=repo_host) (check_func (H:=repo_host) equal_body) [test_frame]
    (2, 3, VStr "custom")%Z strict_state
  = (Raise (mkExc AssertionError "custom"), strict_state)
  /\
  entry_for (H:=installed_host) [wrapper_frame (H:=installed_host); test_frame]
    (VExc (mkExc AssertionError "custom"))
  = Return ("FAILURE: custom" ++ newline).
Proof.
  split; [|split].
  - apply (proj1 (@check_func_twice repo_host _ equal_body [test_frame]
                    (2, 3, VStr "custom")%Z (mkExc AssertionError "custom")
                    initial_state initial_state eq_refl eq_refl));
      reflexivity.
  - apply (proj1 (proj2 (@check_func_twice repo_host _ equal_body [test_frame]
                    (2, 3, VStr "custom")%Z (mkExc AssertionError "custom")
                    strict_state strict_state eq_refl eq_refl)));
      reflexivity.
  - apply (proj2 (proj2 (@check_func_twice installed_host _ equal_body [test_frame]
                    (2, 3, VStr "custom")%Z (mkExc AssertionError "custom")
                    initial_state initial_state eq_refl eq_refl)));
      reflexivity.
Defined.

Lemma nested_check_scopes_share_message_witness :
  let e := mkExc AssertionError "assert 1 == 2" in
  with_check_msg (H:=repo_host) [test_frame] (VStr "outer")
    (with_check_msg (H:=repo_host) [test_frame] (VStr "inner") (ret tt) ;;
     raise (A:=unit) e) initial_state
  = (Return tt,
     msg_cleared
       (logged ("FAILURE: assert 1 == 2" ++ newline ++ test_line)
          (msg_cleared (mkState false [] (VStr "inner"))))).
Proof.
  intros e.
  apply (@nested_check_scopes_share_message repo_host unit [test_frame] [test_frame]
           (VStr "outer") (VStr "inner") (ret tt) tt e initial_state
           (mkState false [] (VStr "inner")));
    reflexivity.
Defined.

Lemma false_message_hides_the_failure_witness :
  let e := mkExc AssertionError "the detail" in
  let entry := "FAILURE: " ++ newline ++ test_line in
  with_check_msg (H:=repo_host) [test_frame] (VInt 0) (raise (A:=unit) e)
    initial_state
  = (Return tt, msg_cleared (logged entry (mkState false [] (VInt 0))))
  /\
  with_raises (H:=repo_host) [test_frame] (raises [ValueError] (VStr ""))
    (raise (A:=unit) (mkExc TypeError "the detail")) initial_state
  = (Return (raises [ValueError] VNone), logged entry initial_state).
Proof.
  intros e entry. split.
  - apply (proj1 (@false_message_hides_the_failure repo_host [test_frame] (VInt 0)
                    e (mkState false [] (VInt 0)) entry
                    eq_refl eq_refl eq_refl eq_refl));
      reflexivity.
  - apply (proj1 (proj2 (@false_message_hides_the_failure repo_host [test_frame]
                    (VStr "") (mkExc TypeError "the detail") initial_state entry
                    eq_refl eq_refl eq_refl eq_refl)));
      reflexivity.
Defined.

Lemma raises_message_is_used_once_witness :
  let first := raises [ValueError] (VStr "first use") in
  let second := raises [ValueError] VNone in
  let st1 := logged ("FAILURE: first use" ++ newline ++ test_line) initial_state in
  second = CheckRaisesContext.set_msg first VNone
  /\
  with_raises (H:=repo_host) [test_frame] second
    (raise (A:=unit) (mkExc TypeError "second failure")) st1
  = (Return second,
     logged ("FAILURE: second failure" ++ newline ++ test_line) st1).
Proof.
  intros first second st1.
  destruct (@raises_message_is_used_once repo_host unit [test_frame] first second
              (raise (mkExc TypeError "first failure")) initial_state st1 eq_refl)
    as (S & N).
  split; [exact S|].
  apply (N unit (raise (mkExc TypeError "second failure")) [test_frame]
           (mkExc TypeError "second failure") st1);
    reflexivity.
Defined.

Lemma raises_accepts_subclasses_witness :
  let e := mkExc MyKeyError "'k'" in
  with_raises (H:=repo_host) [test_frame] (raises [ValueError; LookupError] VNone)
    (raise (A:=unit) e) strict_state
  = (Return (raises [ValueError; LookupError] VNone), strict_state)
  /\
  with_raises (H:=repo_host) [test_frame] (raises [Exception] (VStr "m"))
    (assert_ false (VStr "hidden")) initial_state
  = (Return (raises [Exception] VNone), initial_state).
Proof.
  intros e. split.
  - apply (proj1 (@raises_accepts_subclasses repo_host unit [test_frame]
                    (raises [ValueError; LookupError] VNone) (raise e) e
                    strict_state strict_state eq_refl)
             LookupError KeyError).
    + right. left. reflexivity.
    + reflexivity.
    + reflexivity.
  - apply (proj2 (proj2 (@raises_accepts_subclasses repo_host unit [test_frame]
                    (raises [Exception] (VStr "m")) (assert_ false (VStr "hidden"))
                    (mkExc AssertionError "hidden")
                    initial_state initial_state eq_refl))).
    + left. reflexivity.
    + reflexivity.
Defined.

Lemma raises_call_never_reports_witness :
  let quiet : pyfun unit := fun _ _ => ret VNone in
  CheckRaisesContext.__call__ (H:=repo_host) [test_frame]
    (raises [ValueError] (VStr "expected")) quiet tt VNone initial_state
  = (Return (raises [ValueError] VNone), initial_state)
  /\
  with_raises (H:=repo_host) [test_frame] (raises [ValueError] (VStr "expected"))
    (call_from_raises (H:=repo_host) quiet [test_frame] tt) initial_state
  = (Return (raises [ValueError] VNone),
     logged ("FAILURE: expected" ++ newline ++ test_line) initial_state).
Proof.
  intros quiet.
  destruct (proj2 (@raises_call_never_reports repo_host unit [test_frame]
                     (raises [ValueError] (VStr "expected")) quiet tt VNone
                     initial_state) VNone initial_state eq_refl) as (C & W).
  split; [exact C|].
  apply W; reflexivity.
Defined.


Lemma comparisons_share_one_ordering_witness :
  let entry := "FAILURE: " ++ newline ++ test_line in
  checks_as (less (H:=repo_host) [test_frame] (SStr "abc", SStr "abd", VStr "")
               initial_state) true entry initial_state
  /\ checks_as (greater_equal (H:=repo_host) [test_frame]
                  (SStr "abc", SStr "abd", VStr "") initial_state)
       false entry initial_state
  /\ checks_as (greater (H:=repo_host) [test_frame]
                  (SStr "abd", SStr "abc", VStr "") initial_state)
       true entry initial_state.
Proof.
  intros entry.
  destruct (@comparisons_share_one_ordering repo_host [test_frame]
              (SStr "abc") (SStr "abd") (VStr "") initial_state Lt entry
              eq_refl eq_refl eq_refl) as (L & _ & _ & _ & GE & _ & G).
  split; [exact L|]. split; [exact GE|exact G].
Defined.

Lemma unordered_values_are_not_soft_witness :
  greater (H:=repo_host) [test_frame] (SNone, SInt 1, VStr "custom") initial_state
  = (Raise (mkExc TypeError
              "'>' not supported between instances of 'NoneType' and 'int'"),
     initial_state).
Proof.
  apply (proj1 (proj2 (proj2 (@unordered_values_are_not_soft repo_host [test_frame]
                  SNone (SInt 1) (VStr "custom") initial_state eq_refl)))).
Defined.

Lemma get_failures_is_live_witness :
  let handed_out := Heap.get_failures Heap.initial in
  let s' :=
    Heap.append ("FAILURE: custom" ++ newline ++ test_line) Heap.initial in
  exists entry,
    Heap.contents s' handed_out = (Heap.contents Heap.initial handed_out ++ [entry])%list
    /\ Heap.get_failures s' = handed_out.
Proof.
  intros handed_out s'.
  apply (@get_failures_is_live repo_host
           [wrapper_frame (H:=repo_host); test_frame] (VStr "custom")
           Heap.initial s').
  - unfold Heap.well_formed. cbn. lia.
  - reflexivity.
Defined.

Lemma clear_failures_rebinds_witness :
  let s := Heap.append "FAILURE: earlier" Heap.initial in
  Heap.contents (Heap.clear_failures s) (Heap.get_failures s) = ["FAILURE: earlier"]
  /\ Heap.contents (Heap.clear_failures s) (Heap.get_failures (Heap.clear_failures s))
     = [].
Proof.
  intros s.
  destruct (@clear_failures_rebinds repo_host s) as (Old & _ & New & _).
  - unfold Heap.well_formed. cbn. lia.
  - split; [exact Old|exact New].
Defined.

Lemma store_agrees_with_globals_witness :
  Heap.agrees
    (snd (Heap.log_failure (H:=repo_host) [wrapper_frame (H:=repo_host); test_frame]
            (VStr "custom") Heap.initial))
    (snd (log_failure (H:=repo_host) [wrapper_frame (H:=repo_host); test_frame]
            (VStr "custom") initial_state)).
Proof.
  destruct (@store_agrees_with_globals repo_host Heap.initial initial_state)
    as (_ & _ & L & _).
  - unfold Heap.well_formed. cbn. lia.
  - reflexivity.
  - exact (proj1 (proj2 (L [wrapper_frame (H:=repo_host); test_frame]
                           (VStr "custom")))).
Defined.

Lemma markers_are_substrings_witness :
  is_test_frame latest_frame = true
  /\
  log_failure (H:=repo_host) [wrapper_frame (H:=repo_host); latest_frame; test_frame]
    VNone initial_state
  = (Return tt,
     logged ("FAILURE: " ++ newline
               ++ "tests/helpers.py:21 in latest_value() -> check.is_true(value)")
       initial_state).
Proof.
  destruct (@markers_are_substrings repo_host latest_frame) as (T & _ & L).
  split.
  - apply (proj2 T). exists "la", "value". reflexivity.
  - apply (L (wrapper_frame (H:=repo_host)) [test_frame] VNone initial_state
             "la" "value"); reflexivity.
Defined.
